(** * libCellML generator: causalization and code emission

    A shallow embedding of [src/generator.cpp] (the causalization-based
    generator) and the properties its specification states about it.

    Conventions of the embedding.
    - [size_t] is a 64-bit unsigned integer: a [Z] reduced modulo [2^64];
      [++x] is [pre_increment].
    - A [GeneratorVariableImplPtr] is a handle: the position of the record in
      [GeneratorImpl::mVariables], the vector that owns every record.  The
      lists of an equation hold handles, so two equations that reference the
      same variable see each other's updates, as with the shared pointers of
      the source.
    - A null pointer is [None]; a function that would dereference one, or
      let an exception escape, returns [None].

    Where the functions of the source are:
    - [GeneratorVariableImpl::setVariable], [makeVariableOfIntegration],
      [makeState]: module [GeneratorVariableImpl];
    - [GeneratorEquationImpl::check] and its helpers: module
      [GeneratorEquationImpl]; [check] is cut into [overconstraint],
      [stopTracking] and [determine], in the order of its statements;
    - [isRelationalOperator] ... [generateCode]: module [Emitter];
      [operatorParentheses] is the chain of tests of
      [generateOperatorCode];
    - [processEquationAst], [processModel]: module [Processing];
      [processModel] is [processedAsts] followed by [causalization];
    - [hasValidModel], [modelType], [stateCount], [variableCount]: at top
      level; [initializeVariables] and the three [compute...Equations]:
      module [Blocks]. *)

From Stdlib Require Import ZArith Lia Bool List DecimalString.
From stdpp Require Import base decidable option list strings.
Import ListNotations.

Local Open Scope Z_scope.

(** ** [size_t] *)

Definition SIZE_T_MODULUS : Z := 2 ^ 64.

(** [std::numeric_limits<size_t>::max()] *)
Definition MAX_SIZE_T : Z := SIZE_T_MODULUS - 1.

(** [++x] on a [size_t]: wraps from [MAX_SIZE_T] to [0]. *)
Definition pre_increment (x : Z) : Z := (x + 1) mod SIZE_T_MODULUS.

(** ** [libcellml::VariablePtr] *)

Module VariablePtr.

(** Modelled from the spec: class [Variable] ([variable.h], [variable.cpp])
    is not part of the sources at hand.  The generator reads a name, an
    optional literal initial value (empty when absent), the names of the
    owning component and model (for its error messages) and asks whether
    two variables are linked by an equivalence; [ident] stands for the
    object's address, which the generator compares with [==]. *)
Record t : Type := mk {
  ident : nat;
  name : string;
  initialValue : string;
  parentComponentName : string;
  parentModelName : string;
  equivalentVariables : list nat
}.

#[global] Instance eq_dec : EqDecision t.
Proof. solve_decision. Defined.

(** [a == b] on two [VariablePtr]. *)
Definition same (a b : t) : bool := Nat.eqb (ident a) (ident b).

(** [a->hasEquivalentVariable(b)] *)
Definition hasEquivalentVariable (a b : t) : bool :=
  existsb (Nat.eqb (ident b)) (equivalentVariables a).

(** [v->initialValue().empty()] *)
Definition initialValueEmpty (v : t) : bool :=
  bool_decide (initialValue v = "").

End VariablePtr.

(** ** [GeneratorVariableImpl] *)

Module GeneratorVariableImpl.

Inductive Type_ : Type :=
| UNKNOWN
| SHOULD_BE_STATE
| VARIABLE_OF_INTEGRATION
| STATE
| CONSTANT
| COMPUTED_TRUE_CONSTANT
| COMPUTED_VARIABLE_BASED_CONSTANT
| ALGEBRAIC.

#[global] Instance Type_eq_dec : EqDecision Type_.
Proof. solve_decision. Defined.

Record t : Type := mk {
  mType : Type_;
  mIndex : Z;
  mVariable : VariablePtr.t;
  mComputed : bool
}.

Definition set_mType (ty : Type_) (self : t) : t :=
  mk ty (mIndex self) (mVariable self) (mComputed self).

Definition set_mIndex (i : Z) (self : t) : t :=
  mk (mType self) i (mVariable self) (mComputed self).

Definition set_mVariable (v : VariablePtr.t) (self : t) : t :=
  mk (mType self) (mIndex self) v (mComputed self).

Definition set_mComputed (b : bool) (self : t) : t :=
  mk (mType self) (mIndex self) (mVariable self) b.

Definition setVariable (variable : VariablePtr.t) (self : t) : t :=
  let self := set_mVariable variable self in
  if negb (VariablePtr.initialValueEmpty variable) then
    if bool_decide (mType self = UNKNOWN) then
      set_mType CONSTANT self
    else if bool_decide (mType self = SHOULD_BE_STATE) then
      set_mType STATE self
    else self
  else self.

(** The constructor: the default member initialisers, then
    [setVariable(variable)]. *)
Definition new (variable : VariablePtr.t) : t :=
  setVariable variable (mk UNKNOWN MAX_SIZE_T variable false).

Definition makeVariableOfIntegration (self : t) : t :=
  set_mType VARIABLE_OF_INTEGRATION self.

Definition makeState (self : t) : t :=
  if bool_decide (mType self = UNKNOWN) then
    set_mType SHOULD_BE_STATE self
  else if bool_decide (mType self = CONSTANT) then
    set_mType STATE self
  else self.

End GeneratorVariableImpl.

(** ** [GeneratorEquationAstImpl] *)

#[local] Set Warnings "-register-all".

Module GeneratorEquationAstImpl.

Inductive Type_ : Type :=
(* Relational operators *)
| EQ | EQEQ | NEQ | LT | LEQ | GT | GEQ
(* Arithmetic operators *)
| PLUS | MINUS | TIMES | DIVIDE | POWER | ROOT | ABS | EXP | LN | LOG
| CEILING | FLOOR | FACTORIAL
(* Logical operators *)
| AND | OR | XOR | NOT
(* Calculus elements *)
| DIFF
(* Min/max operators *)
| MIN | MAX
(* Gcd/lcm operators *)
| GCD | LCM
(* Trigonometric operators *)
| SIN | COS | TAN | SEC | CSC | COT | SINH | COSH | TANH | SECH | CSCH
| COTH | ASIN | ACOS | ATAN | ASEC | ACSC | ACOT | ASINH | ACOSH | ATANH
| ASECH | ACSCH | ACOTH
(* Extra operators *)
| REM
(* Piecewise statement *)
| PIECEWISE | PIECE | OTHERWISE
(* Token elements *)
| CN | CI
(* Qualifier elements *)
| DEGREE | LOGBASE | BVAR
(* Constants *)
| TRUE | FALSE | E | PI | INF | NAN.

#[global] Instance Type_eq_dec : EqDecision Type_.
Proof. solve_decision. Defined.

(** A node owns its two children.  [mParent] is not stored: in every tree
    that [processNode] builds it points to the node that owns this one
    (and is null at the root), so the functions that read it receive the
    owners on the way down instead. *)
Inductive t : Type :=
| Node (mType : Type_) (mValue : string) (mVariable : option VariablePtr.t)
       (mLeft mRight : option t).

Definition mType (ast : t) : Type_ :=
  match ast with Node ty _ _ _ _ => ty end.
Definition mValue (ast : t) : string :=
  match ast with Node _ v _ _ _ => v end.
Definition mVariable (ast : t) : option VariablePtr.t :=
  match ast with Node _ _ v _ _ => v end.
Definition mLeft (ast : t) : option t :=
  match ast with Node _ _ _ l _ => l end.
Definition mRight (ast : t) : option t :=
  match ast with Node _ _ _ _ r => r end.

(** The default constructor: [GeneratorEquationAstImpl(Type::EQ, "", nullptr, nullptr)]. *)
Definition new : t := Node EQ "" None None None.

End GeneratorEquationAstImpl.

(** ** [GeneratorEquationImpl] *)

(** The variable records, owned by [GeneratorImpl::mVariables]. *)
Abbreviation Store := (list GeneratorVariableImpl.t).

(** What a handle that points at no record reads as.  The source has no
    such pointer: every entry of an equation's lists comes from
    [generatorVariable], which returns an element of [mVariables]. *)
Definition dangling : GeneratorVariableImpl.t :=
  GeneratorVariableImpl.mk GeneratorVariableImpl.UNKNOWN MAX_SIZE_T
    (VariablePtr.mk 0 "" "" "" "" []) false.

(** [*variable] *)
Definition deref (store : Store) (variable : nat) : GeneratorVariableImpl.t :=
  default dangling (store !! variable).

(** An update through the pointer [variable]. *)
Definition modify (f : GeneratorVariableImpl.t -> GeneratorVariableImpl.t)
    (variable : nat) (store : Store) : Store :=
  <[variable := f (deref store variable)]> store.

(** One execution of an assignment [variable->mIndex = ...]: the record
    written, its type at that moment, the value stored. *)
Record IndexWrite : Type := mkIndexWrite {
  written : nat;
  writtenType : GeneratorVariableImpl.Type_;
  writtenIndex : Z
}.

(** The heap that [check] and [processModel] work on: the records, and a
    ghost history of the assignments to [mIndex], most recent first.  No
    statement of the source reads the history. *)
Record Heap : Type := mkHeap {
  objects : Store;
  mIndexWrites : list IndexWrite
}.

(** [variable->mIndex = value] *)
Definition assign_mIndex (variable : nat) (value : Z) (heap : Heap) : Heap :=
  mkHeap (modify (GeneratorVariableImpl.set_mIndex value) variable (objects heap))
         (mkIndexWrite variable
            (GeneratorVariableImpl.mType (deref (objects heap) variable)) value
          :: mIndexWrites heap).

(** Any other update through [variable]. *)
Definition update (f : GeneratorVariableImpl.t -> GeneratorVariableImpl.t)
    (variable : nat) (heap : Heap) : Heap :=
  mkHeap (modify f variable (objects heap)) (mIndexWrites heap).

(** The three counters that [check] receives by reference. *)
Record Counters : Type := mkCounters {
  equationOrder : Z;
  stateIndex : Z;
  variableIndex : Z
}.

Module GeneratorEquationImpl.

Inductive Type_ : Type :=
| UNKNOWN
| TRUE_CONSTANT
| VARIABLE_BASED_CONSTANT
| RATE
| ALGEBRAIC.

#[global] Instance Type_eq_dec : EqDecision Type_.
Proof. solve_decision. Defined.

Record t : Type := mk {
  mType : Type_;
  mOrder : Z;
  mAst : GeneratorEquationAstImpl.t;
  mVariables : list nat;
  mOdeVariables : list nat;
  mTrulyConstant : bool;
  mVariableBasedConstant : bool
}.

(** The constructor, with the default member initialisers. *)
Definition new : t :=
  mk UNKNOWN 0 GeneratorEquationAstImpl.new [] [] true true.

Definition addVariable (variable : nat) (self : t) : t :=
  if bool_decide (variable ∈ mVariables self) then self
  else mk (mType self) (mOrder self) (mAst self)
          (mVariables self ++ [variable]) (mOdeVariables self)
          (mTrulyConstant self) (mVariableBasedConstant self).

Definition addOdeVariable (odeVariable : nat) (self : t) : t :=
  if bool_decide (odeVariable ∈ mOdeVariables self) then self
  else mk (mType self) (mOrder self) (mAst self)
          (mVariables self) (mOdeVariables self ++ [odeVariable])
          (mTrulyConstant self) (mVariableBasedConstant self).

Definition containsNonTrueConstantVariables (store : Store)
    (variables : list nat) : bool :=
  existsb (fun variable =>
             negb (bool_decide (GeneratorVariableImpl.mType (deref store variable)
                                = GeneratorVariableImpl.UNKNOWN)))
          variables.

Definition containsNonConstantVariables (store : Store)
    (variables : list nat) : bool :=
  existsb (fun variable =>
             negb (bool_decide (GeneratorVariableImpl.mType (deref store variable)
                                = GeneratorVariableImpl.UNKNOWN))
             && negb (bool_decide (GeneratorVariableImpl.mType (deref store variable)
                                   = GeneratorVariableImpl.CONSTANT)))
          variables.

Definition knownVariable (store : Store) (variable : nat) : bool :=
  GeneratorVariableImpl.mComputed (deref store variable)
  || bool_decide (GeneratorVariableImpl.mType (deref store variable)
                  = GeneratorVariableImpl.VARIABLE_OF_INTEGRATION)
  || bool_decide (GeneratorVariableImpl.mType (deref store variable)
                  = GeneratorVariableImpl.STATE)
  || bool_decide (GeneratorVariableImpl.mType (deref store variable)
                  = GeneratorVariableImpl.CONSTANT).

Definition knownOdeVariable (store : Store) (odeVariable : nat) : bool :=
  GeneratorVariableImpl.mComputed (deref store odeVariable)
  || bool_decide (GeneratorVariableImpl.mType (deref store odeVariable)
                  = GeneratorVariableImpl.VARIABLE_OF_INTEGRATION).

(** [l.remove_if(pred)] *)
Definition remove_if (pred : nat -> bool) (l : list nat) : list nat :=
  List.filter (fun x => negb (pred x)) l.

(** The variable that the two tests
    [mVariables.size() + mOdeVariables.size() == 1] of [check] select:
    [(mVariables.size() == 1) ? mVariables.front() : mOdeVariables.front()]
    when the sizes add up to one, nothing otherwise. *)
Definition soleVariable (self : t) : option nat :=
  if (length (mVariables self) + length (mOdeVariables self) =? 1)%nat then
    if (length (mVariables self) =? 1)%nat then head (mVariables self)
    else head (mOdeVariables self)
  else None.

(** The type that [check] gives to a variable that is still [UNKNOWN]. *)
Definition computedType (self : t) : GeneratorVariableImpl.Type_ :=
  if mTrulyConstant self then GeneratorVariableImpl.COMPUTED_TRUE_CONSTANT
  else if mVariableBasedConstant self then
    GeneratorVariableImpl.COMPUTED_VARIABLE_BASED_CONSTANT
  else GeneratorVariableImpl.ALGEBRAIC.

(** The type that [check] gives to the equation, from the type of the
    variable that it computes. *)
Definition equationType (ty : GeneratorVariableImpl.Type_) : Type_ :=
  if bool_decide (ty = GeneratorVariableImpl.STATE) then RATE
  else if bool_decide (ty = GeneratorVariableImpl.COMPUTED_TRUE_CONSTANT) then
    TRUE_CONSTANT
  else if bool_decide (ty = GeneratorVariableImpl.COMPUTED_VARIABLE_BASED_CONSTANT) then
    VARIABLE_BASED_CONSTANT
  else ALGEBRAIC.

(** The first test of [check]: exactly one variable is left in the two
    lists and its type is no longer [UNKNOWN] (an overconstraint). *)
Definition overconstraint (store : Store) (self : t) : bool :=
  match soleVariable self with
  | Some variable =>
      negb (bool_decide (GeneratorVariableImpl.mType (deref store variable)
                         = GeneratorVariableImpl.UNKNOWN))
  | None => false
  end.

(** The middle of [check]: the two flags are updated from the types of
    the variables, then the known variables leave the two lists. *)
Definition stopTracking (store : Store) (self : t) : t :=
  let trulyConstant :=
    mTrulyConstant self
    && negb (containsNonTrueConstantVariables store (mVariables self))
    && negb (containsNonTrueConstantVariables store (mOdeVariables self)) in
  let variableBasedConstant :=
    mVariableBasedConstant self
    && negb (containsNonConstantVariables store (mVariables self))
    && negb (containsNonConstantVariables store (mOdeVariables self)) in
  mk (mType self) (mOrder self) (mAst self)
     (remove_if (knownVariable store) (mVariables self))
     (remove_if (knownOdeVariable store) (mOdeVariables self))
     trulyConstant variableBasedConstant.

(** The end of [check], from [bool relevantCheck = false] on. *)
Definition determine (self : t) (heap : Heap) (c : Counters)
    : bool * t * Heap * Counters :=
  match soleVariable self with
  | Some variable =>
      let heap :=
        if bool_decide (GeneratorVariableImpl.mType (deref (objects heap) variable)
                        = GeneratorVariableImpl.UNKNOWN)
        then update (GeneratorVariableImpl.set_mType (computedType self))
                    variable heap
        else heap in
      let type := GeneratorVariableImpl.mType (deref (objects heap) variable) in
      if bool_decide (type = GeneratorVariableImpl.STATE)
         || bool_decide (type = GeneratorVariableImpl.COMPUTED_TRUE_CONSTANT)
         || bool_decide (type = GeneratorVariableImpl.COMPUTED_VARIABLE_BASED_CONSTANT)
         || bool_decide (type = GeneratorVariableImpl.ALGEBRAIC)
      then
        let c :=
          if bool_decide (type = GeneratorVariableImpl.STATE)
          then mkCounters (equationOrder c) (pre_increment (stateIndex c))
                          (variableIndex c)
          else mkCounters (equationOrder c) (stateIndex c)
                          (pre_increment (variableIndex c)) in
        let heap :=
          assign_mIndex variable
            (if bool_decide (type = GeneratorVariableImpl.STATE)
             then stateIndex c else variableIndex c) heap in
        let heap := update (GeneratorVariableImpl.set_mComputed true) variable heap in
        let c := mkCounters (pre_increment (equationOrder c)) (stateIndex c)
                            (variableIndex c) in
        let self :=
          mk (equationType type) (equationOrder c) (mAst self)
             (mVariables self) (mOdeVariables self)
             (mTrulyConstant self) (mVariableBasedConstant self) in
        (true, self, heap, c)
      else (false, self, heap, c)
  | None => (false, self, heap, c)
  end.

(** [check]: the result, the equation, the heap and the counters after
    the call. *)
Definition check (self : t) (heap : Heap) (c : Counters)
    : bool * t * Heap * Counters :=
  if negb (mOrder self =? 0) then (false, self, heap, c)
  else if overconstraint (objects heap) self then (false, self, heap, c)
  else determine (stopTracking (objects heap) self) heap c.

End GeneratorEquationImpl.

(** ** Collaborators of the code emitter *)

(** The accessors of [GeneratorProfile] that the generator calls.  The class
    itself ([generatorprofile.h]) is not part of the sources at hand; the
    generator only reads it. *)
Record GeneratorProfile : Type := mkProfile {
  eqString : string;
  eqEqString : string;
  neqString : string;
  ltString : string;
  leqString : string;
  gtString : string;
  geqString : string;
  plusString : string;
  minusString : string;
  timesString : string;
  divideString : string;
  hasPowerOperator : bool;
  powerString : string;
  squareRootString : string;
  squareString : string;
  absoluteValueString : string;
  exponentialString : string;
  napierianLogarithmString : string;
  commonLogarithmString : string;
  ceilingString : string;
  floorString : string;
  factorialString : string;
  andString : string;
  orString : string;
  hasXorOperator : bool;
  xorString : string;
  notString : string;
  minString : string;
  maxString : string;
  gcdString : string;
  lcmString : string;
  sinString : string;
  cosString : string;
  tanString : string;
  secString : string;
  cscString : string;
  cotString : string;
  sinhString : string;
  coshString : string;
  tanhString : string;
  sechString : string;
  cschString : string;
  cothString : string;
  asinString : string;
  acosString : string;
  atanString : string;
  asecString : string;
  acscString : string;
  acotString : string;
  asinhString : string;
  acoshString : string;
  atanhString : string;
  asechString : string;
  acschString : string;
  acothString : string;
  remString : string;
  hasConditionalOperator : bool;
  conditionalOperatorIfString : string;
  conditionalOperatorElseString : string;
  piecewiseIfString : string;
  piecewiseElseString : string;
  trueString : string;
  falseString : string;
  eString : string;
  piString : string;
  infString : string;
  nanString : string;
  variableOfIntegrationString : string;
  statesArrayString : string;
  ratesArrayString : string;
  variablesArrayString : string;
  commandSeparatorString : string
}.

(** [convertToDouble] and [isEqual] are declared in [utilities.h] and work on
    [double]; neither is part of the sources at hand.  The generator only
    asks whether a piece of text, read as a number, equals [0.5], [2.0] or
    [10.0], or differs from [1.0]. *)
Record Utilities : Type := mkUtilities {
  double : Type;
  convertToDouble : string -> double;
  isEqual : double -> double -> bool;
  doubleNeq : double -> double -> bool;   (* [!=] on two [double] *)
  double_0_5 : double;
  double_1_0 : double;
  double_2_0 : double;
  double_10_0 : double
}.

(** ["\n"] *)
Definition newline : string := String (Ascii.ascii_of_nat 10) EmptyString.

(** [std::ostringstream << size_t] *)
Definition decimal (n : Z) : string :=
  NilZero.string_of_uint (N.to_uint (Z.to_N n)).

(** [replace]: [std::string::replace] at [string.find(from)]; when [from]
    does not occur, [find] returns [npos] and [replace] throws
    [std::out_of_range]. *)
Definition replace (s from to : string) : option string :=
  match String.index 0 from s with
  | Some pos =>
      Some (String.substring 0 pos s +:+ to
            +:+ String.substring (pos + String.length from)
                  (String.length s - (pos + String.length from)) s)
  | None => None
  end.

(** ** Code that reads and extends [mVariables]

    [generatorVariable] appends a record when it finds none, and the code
    emitter calls it, so the emitter threads the records.  [None] is a run
    that dereferences a null pointer or lets an exception escape. *)

Definition Gen (A : Type) : Type := Store -> option (A * Store).

Definition ret {A} (a : A) : Gen A := fun store => Some (a, store).

Definition crash {A} : Gen A := fun _ => None.

Definition bind {A B} (m : Gen A) (k : A -> Gen B) : Gen B :=
  fun store =>
    match m store with
    | Some (a, store) => k a store
    | None => None
    end.

Definition lift {A} (o : option A) : Gen A :=
  match o with Some a => ret a | None => crash end.

(** Read the record behind a handle. *)
Definition load (variable : nat) : Gen GeneratorVariableImpl.t :=
  fun store => Some (deref store variable, store).

Declare Scope gen_scope.
Delimit Scope gen_scope with gen.
Bind Scope gen_scope with Gen.
Notation "x <- m ;; k" := (bind m (fun x => k))
  (at level 100, m at next level, right associativity) : gen_scope.
Local Open Scope gen_scope.

(** The loop of [generatorVariable]: the first record, from position [pos]
    on, whose variable is [variable] or is equivalent to it. *)
Fixpoint findGeneratorVariable (variable : VariablePtr.t) (pos : nat)
    (records : list GeneratorVariableImpl.t) : option nat :=
  match records with
  | [] => None
  | generatorVariable :: records =>
      if VariablePtr.same variable (GeneratorVariableImpl.mVariable generatorVariable)
         || VariablePtr.hasEquivalentVariable variable
              (GeneratorVariableImpl.mVariable generatorVariable)
      then Some pos
      else findGeneratorVariable variable (S pos) records
  end.

Definition generatorVariable (variable : VariablePtr.t) : Gen nat :=
  fun store =>
    match findGeneratorVariable variable 0 store with
    | Some generatorVariable => Some (generatorVariable, store)
    | None => Some (length store, store ++ [GeneratorVariableImpl.new variable])
    end.

(** ** The code emitter *)

Module Emitter.
Import GeneratorEquationAstImpl.

Section WithProfile.

Variable utilities : Utilities.
Variable mProfile : GeneratorProfile.

Definition isRelationalOperator (ast : t) : bool :=
  bool_decide (mType ast = EQEQ)
  || bool_decide (mType ast = NEQ)
  || bool_decide (mType ast = LT)
  || bool_decide (mType ast = LEQ)
  || bool_decide (mType ast = GT)
  || bool_decide (mType ast = GEQ).

Definition isPlusOperator (ast : t) : bool := bool_decide (mType ast = PLUS).
Definition isMinusOperator (ast : t) : bool := bool_decide (mType ast = MINUS).
Definition isTimesOperator (ast : t) : bool := bool_decide (mType ast = TIMES).
Definition isDivideOperator (ast : t) : bool := bool_decide (mType ast = DIVIDE).
Definition isPowerOperator (ast : t) : bool := bool_decide (mType ast = POWER).
Definition isRootOperator (ast : t) : bool := bool_decide (mType ast = ROOT).
Definition isAndOperator (ast : t) : bool := bool_decide (mType ast = AND).
Definition isOrOperator (ast : t) : bool := bool_decide (mType ast = OR).
Definition isXorOperator (ast : t) : bool := bool_decide (mType ast = XOR).

Definition isLogicalOrBitwiseOperator (ast : t) : bool :=
  bool_decide (mType ast = AND)
  || bool_decide (mType ast = OR)
  || bool_decide (mType ast = XOR).

Definition isPiecewiseStatement (ast : t) : bool :=
  bool_decide (mType ast = PIECEWISE).

(** [ast->mRight != nullptr] *)
Definition hasRight (ast : t) : bool :=
  match mRight ast with Some _ => true | None => false end.

(** ["(" + code + ")"] *)
Definition parenthesize (code : string) : string := "(" +:+ code +:+ ")".

(** [generateVariableName(variable, ast)].  [ast] is [None] for the
    default argument [nullptr]; otherwise it carries the type of
    [ast->mParent], or [None] when that pointer is null. *)
Definition generateVariableName (variable : VariablePtr.t)
    (ast : option (option Type_)) : Gen string :=
  generatorVariable <- generatorVariable variable ;;
  record <- load generatorVariable ;;
  if bool_decide (GeneratorVariableImpl.mType record
                  = GeneratorVariableImpl.VARIABLE_OF_INTEGRATION)
  then ret (variableOfIntegrationString mProfile)
  else
    arrayName <-
      (if bool_decide (GeneratorVariableImpl.mType record
                       = GeneratorVariableImpl.STATE)
       then match ast with
            | None => ret (statesArrayString mProfile)
            | Some None => crash
            | Some (Some parentType) =>
                ret (if bool_decide (parentType = DIFF)
                     then ratesArrayString mProfile
                     else statesArrayString mProfile)
            end
       else ret (variablesArrayString mProfile)) ;;
    ret (arrayName +:+ "[" +:+ decimal (GeneratorVariableImpl.mIndex record)
         +:+ "]").

(** The parentheses of [generateOperatorCode], once both branches have
    been rendered: the code for the left and for the right branch. *)
Definition operatorParentheses (ast astLeft astRight : t)
    (left right : string) : string * string :=
  if isPlusOperator ast then
    let left :=
      if isRelationalOperator astLeft
         || isLogicalOrBitwiseOperator astLeft
         || isPiecewiseStatement astLeft
      then parenthesize left else left in
    let right :=
      if isRelationalOperator astRight
         || isLogicalOrBitwiseOperator astRight
         || isPiecewiseStatement astRight
      then parenthesize right else right in
    (left, right)
  else if isMinusOperator ast then
    let left :=
      if isRelationalOperator astLeft
         || isLogicalOrBitwiseOperator astLeft
         || isPiecewiseStatement astLeft
      then parenthesize left else left in
    let right :=
      if isRelationalOperator astRight
         || isMinusOperator astRight
         || isLogicalOrBitwiseOperator astRight
         || isPiecewiseStatement astRight
      then parenthesize right
      else if isPlusOperator astRight then
        if hasRight astRight then parenthesize right else right
      else right in
    (left, right)
  else if isTimesOperator ast then
    let left :=
      if isRelationalOperator astLeft
         || isLogicalOrBitwiseOperator astLeft
         || isPiecewiseStatement astLeft
      then parenthesize left
      else if isPlusOperator astLeft || isMinusOperator astLeft then
        if hasRight astLeft then parenthesize left else left
      else left in
    let right :=
      if isRelationalOperator astRight
         || isLogicalOrBitwiseOperator astRight
         || isPiecewiseStatement astRight
      then parenthesize right
      else if isPlusOperator astRight || isMinusOperator astRight then
        if hasRight astRight then parenthesize right else right
      else right in
    (left, right)
  else if isDivideOperator ast then
    let left :=
      if isRelationalOperator astLeft
         || isLogicalOrBitwiseOperator astLeft
         || isPiecewiseStatement astLeft
      then parenthesize left
      else if isPlusOperator astLeft || isMinusOperator astLeft then
        if hasRight astLeft then parenthesize left else left
      else left in
    let right :=
      if isRelationalOperator astRight
         || isTimesOperator astRight
         || isDivideOperator astRight
         || isLogicalOrBitwiseOperator astRight
         || isPiecewiseStatement astRight
      then parenthesize right
      else if isPlusOperator astRight || isMinusOperator astRight then
        if hasRight astRight then parenthesize right else right
      else right in
    (left, right)
  else if isAndOperator ast then
    let left :=
      if isRelationalOperator astLeft
         || isOrOperator astLeft
         || isXorOperator astLeft
         || isPiecewiseStatement astLeft
      then parenthesize left
      else if isPlusOperator astLeft || isMinusOperator astLeft then
        if hasRight astLeft then parenthesize left else left
      else if isPowerOperator astLeft then
        if hasPowerOperator mProfile then parenthesize left else left
      else if isRootOperator astLeft then
        if hasPowerOperator mProfile then parenthesize left else left
      else left in
    let right :=
      if isRelationalOperator astRight
         || isOrOperator astRight
         || isXorOperator astRight
         || isPiecewiseStatement astRight
      then parenthesize right
      else if isPlusOperator astRight || isMinusOperator astRight then
        if hasRight astRight then parenthesize right else right
      else if isPowerOperator astRight then
        if hasPowerOperator mProfile then parenthesize right else right
      else if isRootOperator astRight then
        if hasPowerOperator mProfile then parenthesize right else right
      else right in
    (left, right)
  else if isOrOperator ast then
    let left :=
      if isRelationalOperator astLeft
         || isAndOperator astLeft
         || isXorOperator astLeft
         || isPiecewiseStatement astLeft
      then parenthesize left
      else if isPlusOperator astLeft || isMinusOperator astLeft then
        if hasRight astLeft then parenthesize left else left
      else if isPowerOperator astLeft then
        if hasPowerOperator mProfile then parenthesize left else left
      else if isRootOperator astLeft then
        if hasPowerOperator mProfile then parenthesize left else left
      else left in
    let right :=
      if isRelationalOperator astRight
         || isAndOperator astRight
         || isXorOperator astRight
         || isPiecewiseStatement astRight
      then parenthesize right
      else if isPlusOperator astRight || isMinusOperator astRight then
        if hasRight astRight then parenthesize right else right
      else if isPowerOperator astRight then
        if hasPowerOperator mProfile then parenthesize right else right
      else if isRootOperator astRight then
        if hasPowerOperator mProfile then parenthesize right else right
      else right in
    (left, right)
  else if isXorOperator ast then
    let left :=
      if isRelationalOperator astLeft
         || isAndOperator astLeft
         || isOrOperator astLeft
         || isPiecewiseStatement astLeft
      then parenthesize left
      else if isPlusOperator astLeft || isMinusOperator astLeft then
        if hasRight astLeft then parenthesize left else left
      else if isPowerOperator astLeft then
        if hasPowerOperator mProfile then parenthesize left else left
      else if isRootOperator astLeft then
        if hasPowerOperator mProfile then parenthesize left else left
      else left in
    let right :=
      if isRelationalOperator astRight
         || isAndOperator astRight
         || isOrOperator astRight
         || isPiecewiseStatement astRight
      then parenthesize right
      else if isPlusOperator astRight || isMinusOperator astRight then
        if hasRight astRight then parenthesize right else right
      else if isPowerOperator astRight then
        if hasPowerOperator mProfile then parenthesize right else right
      else if isRootOperator astRight then
        if hasPowerOperator mProfile then parenthesize right else right
      else right in
    (left, right)
  else if isPowerOperator ast then
    let left :=
      if isRelationalOperator astLeft
         || isMinusOperator astLeft
         || isTimesOperator astLeft
         || isDivideOperator astLeft
         || isLogicalOrBitwiseOperator astLeft
         || isPiecewiseStatement astLeft
      then parenthesize left
      else if isPlusOperator astLeft then
        if hasRight astLeft then parenthesize left else left
      else left in
    let right :=
      if isRelationalOperator astRight
         || isMinusOperator astLeft
         || isTimesOperator astRight
         || isDivideOperator astRight
         || isPowerOperator astRight
         || isRootOperator astRight
         || isLogicalOrBitwiseOperator astRight
         || isPiecewiseStatement astRight
      then parenthesize right
      else if isPlusOperator astRight then
        if hasRight astRight then parenthesize right else right
      else right in
    (left, right)
  else if isRootOperator ast then
    let right :=
      if isRelationalOperator astRight
         || isMinusOperator astRight
         || isTimesOperator astRight
         || isDivideOperator astRight
         || isLogicalOrBitwiseOperator astRight
         || isPiecewiseStatement astRight
      then parenthesize right
      else if isPlusOperator astRight then
        if hasRight astRight then parenthesize right else right
      else right in
    let left :=
      if isRelationalOperator astLeft
         || isMinusOperator astLeft
         || isTimesOperator astLeft
         || isDivideOperator astLeft
         || isPowerOperator astLeft
         || isRootOperator astLeft
         || isLogicalOrBitwiseOperator astLeft
         || isPiecewiseStatement astLeft
      then parenthesize left
      else if isPlusOperator astLeft then
        if hasRight astLeft then parenthesize left else left
      else left in
    (left, right)
  else (left, right).

(** [generateOperatorCode(op, ast)].  [generateCode] is the emitter for a
    branch of [ast]; a null branch is dereferenced by the first call on
    it. *)
Definition generateOperatorCode (generateCode : t -> Gen string)
    (op : string) (ast : t) : Gen string :=
  match mLeft ast, mRight ast with
  | Some astLeft, Some astRight =>
      left <- generateCode astLeft ;;
      right <- generateCode astRight ;;
      let code := operatorParentheses ast astLeft astRight left right in
      if isRootOperator ast
      then ret (snd code +:+ op +:+ "(1.0/" +:+ fst code +:+ ")")
      else ret (fst code +:+ op +:+ snd code)
  | Some astLeft, None =>
      left <- generateCode astLeft ;; crash
  | None, _ => crash
  end.

Definition generateMinusUnaryCode (generateCode : t -> Gen string)
    (ast : t) : Gen string :=
  match mLeft ast with
  | Some astLeft =>
      left <- generateCode astLeft ;;
      let left :=
        if isRelationalOperator astLeft
           || isPlusOperator astLeft
           || isMinusOperator astLeft
           || isLogicalOrBitwiseOperator astLeft
           || isPiecewiseStatement astLeft
        then parenthesize left else left in
      ret (minusString mProfile +:+ left)
  | None => crash
  end.

Definition generatePiecewiseIfCode (condition value : string) : Gen string :=
  code <- lift (replace (if hasConditionalOperator mProfile
                         then conditionalOperatorIfString mProfile
                         else piecewiseIfString mProfile)
                        "#cond" condition) ;;
  lift (replace code "#if" value).

Definition generatePiecewiseElseCode (value : string) : Gen string :=
  lift (replace (if hasConditionalOperator mProfile
                 then conditionalOperatorElseString mProfile
                 else piecewiseElseString mProfile)
                "#else" value).

(** [isEqual(convertToDouble(stringValue), d)] *)
Definition doubleValueIs (stringValue : string) (d : double utilities) : bool :=
  isEqual utilities (convertToDouble utilities stringValue) d.


(** [generateCode(ast, parentAst)].  [owner] is the type of
    [ast->mParent] ([None] when that pointer is null) and [parentAst]
    tells whether the second argument is given.  Where the source leaves
    the order of two calls in one expression unspecified, they run in the
    order in which they are written. *)
Fixpoint generateCode (owner : option Type_) (parentAst : bool) (ast : t)
    {struct ast} : Gen string :=
  match ast with
  | Node type value variable astLeft astRight =>
    (* [generateCode(branch)] for a branch of [ast] *)
    let code := fun (branch : option t) =>
      match branch with
      | Some branch => generateCode (Some type) false branch
      | None => crash
      end in
    (* [generateCode(branch, ast)] *)
    let codeWithParent := fun (branch : option t) =>
      match branch with
      | Some branch => generateCode (Some type) true branch
      | None => crash
      end in
    (* [name + "(" + generateCode(branch) + ")"] *)
    let call := fun (name : string) (branch : option t) =>
      argument <- code branch ;;
      ret (name +:+ "(" +:+ argument +:+ ")") in
    (* the n-ary functions [min], [max], [gcd] and [lcm] *)
    let nary := fun (name : string) =>
      left <- codeWithParent astLeft ;;
      right <- codeWithParent astRight ;;
      if negb parentAst
      then ret (name +:+ "(" +:+ left +:+ ", " +:+ right +:+ ")")
      else ret (left +:+ ", " +:+ right) in
    let operator := fun (op : string) =>
      generateOperatorCode (generateCode (Some type) false) op ast in
    match type with
    (* Relational operators *)
    | EQ => operator (eqString mProfile)
    | EQEQ => operator (eqEqString mProfile)
    | NEQ => operator (neqString mProfile)
    | LT => operator (ltString mProfile)
    | LEQ => operator (leqString mProfile)
    | GT => operator (gtString mProfile)
    | GEQ => operator (geqString mProfile)
    (* Arithmetic operators *)
    | PLUS =>
        match astRight with
        | Some _ => operator (plusString mProfile)
        | None => code astLeft
        end
    | MINUS =>
        match astRight with
        | Some _ => operator (minusString mProfile)
        | None => generateMinusUnaryCode (generateCode (Some type) false) ast
        end
    | TIMES => operator (timesString mProfile)
    | DIVIDE => operator (divideString mProfile)
    | POWER =>
        stringValue <- code astRight ;;
        if doubleValueIs stringValue (double_0_5 utilities) then
          call (squareRootString mProfile) astLeft
        else if doubleValueIs stringValue (double_2_0 utilities) then
          call (squareString mProfile) astLeft
        else if hasPowerOperator mProfile then
          operator (powerString mProfile)
        else
          left <- code astLeft ;;
          ret (powerString mProfile +:+ "(" +:+ left +:+ ", " +:+ stringValue
               +:+ ")")
    | ROOT =>
        match astRight with
        | Some _ =>
            stringValue <- code astLeft ;;
            if doubleValueIs stringValue (double_2_0 utilities) then
              call (squareRootString mProfile) astRight
            else if hasPowerOperator mProfile then
              operator (powerString mProfile)
            else
              right <- code astRight ;;
              ret (powerString mProfile +:+ "(" +:+ right +:+ ", 1.0/"
                   +:+ stringValue +:+ ")")
        | None => call (squareRootString mProfile) astLeft
        end
    | ABS => call (absoluteValueString mProfile) astLeft
    | EXP => call (exponentialString mProfile) astLeft
    | LN => call (napierianLogarithmString mProfile) astLeft
    | LOG =>
        match astRight with
        | Some _ =>
            stringValue <- code astLeft ;;
            if doubleValueIs stringValue (double_10_0 utilities) then
              call (commonLogarithmString mProfile) astRight
            else
              right <- code astRight ;;
              ret (napierianLogarithmString mProfile +:+ "(" +:+ right +:+ ")/"
                   +:+ napierianLogarithmString mProfile +:+ "(" +:+ stringValue
                   +:+ ")")
        | None => call (commonLogarithmString mProfile) astLeft
        end
    | CEILING => call (ceilingString mProfile) astLeft
    | FLOOR => call (floorString mProfile) astLeft
    | FACTORIAL => call (factorialString mProfile) astLeft
    (* Logical operators *)
    | AND => operator (andString mProfile)
    | OR => operator (orString mProfile)
    | XOR =>
        if hasXorOperator mProfile then operator (xorString mProfile)
        else
          left <- code astLeft ;;
          right <- code astRight ;;
          ret (xorString mProfile +:+ "(" +:+ left +:+ ", " +:+ right +:+ ")")
    | NOT =>
        left <- code astLeft ;;
        ret (notString mProfile +:+ left)
    (* Calculus elements *)
    | DIFF => code astRight
    (* Min/max operators *)
    | MIN => nary (minString mProfile)
    | MAX => nary (maxString mProfile)
    (* Gcd/lcm operators *)
    | GCD => nary (gcdString mProfile)
    | LCM => nary (lcmString mProfile)
    (* Trigonometric operators *)
    | SIN => call (sinString mProfile) astLeft
    | COS => call (cosString mProfile) astLeft
    | TAN => call (tanString mProfile) astLeft
    | SEC => call (secString mProfile) astLeft
    | CSC => call (cscString mProfile) astLeft
    | COT => call (cotString mProfile) astLeft
    | SINH => call (sinhString mProfile) astLeft
    | COSH => call (coshString mProfile) astLeft
    | TANH => call (tanhString mProfile) astLeft
    | SECH => call (sechString mProfile) astLeft
    | CSCH => call (cschString mProfile) astLeft
    | COTH => call (cothString mProfile) astLeft
    | ASIN => call (asinString mProfile) astLeft
    | ACOS => call (acosString mProfile) astLeft
    | ATAN => call (atanString mProfile) astLeft
    | ASEC => call (asecString mProfile) astLeft
    | ACSC => call (acscString mProfile) astLeft
    | ACOT => call (acotString mProfile) astLeft
    | ASINH => call (asinhString mProfile) astLeft
    | ACOSH => call (acoshString mProfile) astLeft
    | ATANH => call (atanhString mProfile) astLeft
    | ASECH => call (asechString mProfile) astLeft
    | ACSCH => call (acschString mProfile) astLeft
    | ACOTH => call (acothString mProfile) astLeft
    (* Extra operators *)
    | REM =>
        left <- code astLeft ;;
        right <- code astRight ;;
        ret (remString mProfile +:+ "(" +:+ left +:+ ", " +:+ right +:+ ")")
    (* Piecewise statement *)
    | PIECEWISE =>
        match astRight with
        | Some piece =>
            if bool_decide (mType piece = PIECE) then
              left <- code astLeft ;;
              right <- code astRight ;;
              nan <- generatePiecewiseElseCode (nanString mProfile) ;;
              otherwise <- generatePiecewiseElseCode (right +:+ nan) ;;
              ret (left +:+ otherwise)
            else
              left <- code astLeft ;;
              right <- code astRight ;;
              otherwise <- generatePiecewiseElseCode right ;;
              ret (left +:+ otherwise)
        | None =>
            left <- code astLeft ;;
            otherwise <- generatePiecewiseElseCode (nanString mProfile) ;;
            ret (left +:+ otherwise)
        end
    | PIECE =>
        condition <- code astRight ;;
        value <- code astLeft ;;
        generatePiecewiseIfCode condition value
    | OTHERWISE => code astLeft
    (* Token elements *)
    | CN => ret value
    | CI =>
        match variable with
        | Some variable => generateVariableName variable (Some owner)
        | None => crash
        end
    (* Qualifier elements *)
    | DEGREE | LOGBASE | BVAR => code astLeft
    (* Constants *)
    | TRUE => ret (trueString mProfile)
    | FALSE => ret (falseString mProfile)
    | E => ret (eString mProfile)
    | PI => ret (piString mProfile)
    | INF => ret (infString mProfile)
    | NAN => ret (nanString mProfile)
    end
  end.

End WithProfile.
End Emitter.

(** ** [Logger] and [Generator] *)

Module Error.

(** The only kind that the generator sets. *)
Inductive Kind : Type := GENERATOR.

Record t : Type := mk {
  description : string;
  kind : Kind
}.

End Error.

(** [Generator::GeneratorImpl], without the back pointer [mGenerator] (the
    functions that follow it receive the [Generator]) and without the
    [mNeed...] flags, which nothing reads.  [mHeap] holds [mVariables]. *)
Record GeneratorImpl : Type := mkGeneratorImpl {
  mHasModel : bool;
  mVariableOfIntegration : option VariablePtr.t;
  mHeap : Heap;
  mEquations : list GeneratorEquationImpl.t;
  mProfile : GeneratorProfile
}.

Definition mVariables (impl : GeneratorImpl) : Store := objects (mHeap impl).

(** A [Generator]: the error list of its base class [Logger], and its
    private implementation. *)
Record Generator : Type := mkGenerator {
  errors : list Error.t;
  mPimpl : GeneratorImpl
}.

Definition errorCount (generator : Generator) : nat := length (errors generator).

Definition addError (err : Error.t) (generator : Generator) : Generator :=
  mkGenerator (errors generator ++ [err]) (mPimpl generator).

(** The constructor [Generator::Generator()], given the default profile. *)
Definition newGenerator (profile : GeneratorProfile) : Generator :=
  mkGenerator [] (mkGeneratorImpl false None (mkHeap [] []) [] profile).

Definition setProfile (profile : GeneratorProfile) (generator : Generator)
    : Generator :=
  let impl := mPimpl generator in
  mkGenerator (errors generator)
    (mkGeneratorImpl (mHasModel impl) (mVariableOfIntegration impl) (mHeap impl)
       (mEquations impl) profile).

Definition set_mHeap (heap : Heap) (generator : Generator) : Generator :=
  let impl := mPimpl generator in
  mkGenerator (errors generator)
    (mkGeneratorImpl (mHasModel impl) (mVariableOfIntegration impl) heap
       (mEquations impl) (mProfile impl)).

Definition set_mVariables (store : Store) (generator : Generator) : Generator :=
  set_mHeap (mkHeap store (mIndexWrites (mHeap (mPimpl generator)))) generator.

Definition set_mEquations (equations : list GeneratorEquationImpl.t)
    (generator : Generator) : Generator :=
  let impl := mPimpl generator in
  mkGenerator (errors generator)
    (mkGeneratorImpl (mHasModel impl) (mVariableOfIntegration impl) (mHeap impl)
       equations (mProfile impl)).

Definition set_mVariableOfIntegration (variable : option VariablePtr.t)
    (generator : Generator) : Generator :=
  let impl := mPimpl generator in
  mkGenerator (errors generator)
    (mkGeneratorImpl (mHasModel impl) variable (mHeap impl)
       (mEquations impl) (mProfile impl)).

(** Run code that reads and extends [mVariables] on a generator. *)
Definition onVariables {A} (m : Gen A) (generator : Generator)
    : option (A * Generator) :=
  match m (mVariables (mPimpl generator)) with
  | Some (a, store) => Some (a, set_mVariables store generator)
  | None => None
  end.


(** ** [processModel] *)

(** What the loop over [processComponent] leaves behind.  [processNode] and
    [processComponent] walk an [XmlDoc] and a [Component], neither of which
    is part of the sources at hand, so the walk is an input here.  It
    creates every variable record with [GeneratorVariableImpl(variable)] or
    brings it to the same state with [setVariable] (so a record is known by
    the variable that it holds), and every equation with
    [GeneratorEquationImpl()], of which it sets the tree and the two lists
    of variables; it may report errors. *)
Record WalkedEquation : Type := mkWalkedEquation {
  walkedAst : GeneratorEquationAstImpl.t;
  walkedVariables : list nat;
  walkedOdeVariables : list nat
}.

Record ComponentWalk : Type := mkComponentWalk {
  walkVariables : list VariablePtr.t;
  walkEquations : list WalkedEquation;
  walkErrors : list Error.t
}.

Definition walkedEquation (equation : WalkedEquation) : GeneratorEquationImpl.t :=
  GeneratorEquationImpl.mk
    (GeneratorEquationImpl.mType GeneratorEquationImpl.new)
    (GeneratorEquationImpl.mOrder GeneratorEquationImpl.new)
    (walkedAst equation) (walkedVariables equation) (walkedOdeVariables equation)
    (GeneratorEquationImpl.mTrulyConstant GeneratorEquationImpl.new)
    (GeneratorEquationImpl.mVariableBasedConstant GeneratorEquationImpl.new).

Module Processing.
Import GeneratorEquationAstImpl.

Section WithUtilities.

Variable utilities : Utilities.

(** [(ast != nullptr) && (ast->mType == type)] *)
Definition hasType (ast : option t) (type : Type_) : bool :=
  match ast with
  | Some ast => bool_decide (mType ast = type)
  | None => false
  end.

Definition generatorError (description : string) : Error.t :=
  Error.mk description Error.GENERATOR.

(** The first part of [processEquationAst]: the variable of integration. *)
Definition checkVariableOfIntegration (astParent astGrandParent : option t)
    (ast : t) (generator : Generator) : option Generator :=
  if bool_decide (mType ast = CI) && hasType astParent BVAR
     && hasType astGrandParent DIFF
  then
    variable ← mVariable ast;
    '(generatorVariable, generator) ←
      onVariables (generatorVariable variable) generator;
    let generator :=
      set_mVariables
        (modify GeneratorVariableImpl.makeVariableOfIntegration generatorVariable
           (mVariables (mPimpl generator)))
        generator in
    match mVariableOfIntegration (mPimpl generator) with
    | None =>
        if negb (VariablePtr.initialValueEmpty variable) then
          Some (addError
                  (generatorError
                     ("Variable '" +:+ VariablePtr.name variable
                      +:+ "' in component '" +:+ VariablePtr.parentComponentName variable
                      +:+ "' of model '" +:+ VariablePtr.parentModelName variable
                      +:+ "' cannot be both a variable of integration and initialised."))
                  generator)
        else Some (set_mVariableOfIntegration (Some variable) generator)
    | Some voi =>
        if negb (VariablePtr.same variable voi)
           && negb (VariablePtr.hasEquivalentVariable variable voi)
        then
          Some (addError
                  (generatorError
                     ("Variable '" +:+ VariablePtr.name voi
                      +:+ "' in component '" +:+ VariablePtr.parentComponentName voi
                      +:+ "' of model '" +:+ VariablePtr.parentModelName voi
                      +:+ "' and variable '" +:+ VariablePtr.name variable
                      +:+ "' in component '" +:+ VariablePtr.parentComponentName variable
                      +:+ "' of model '" +:+ VariablePtr.parentModelName variable
                      +:+ "' cannot both be a variable of integration."))
                  generator)
        else Some generator
    end
  else Some generator.

(** The second part: only first-order ODEs. *)
Definition checkFirstOrder (astParent astGrandParent astGreatGrandParent : option t)
    (ast : t) (generator : Generator) : option Generator :=
  if bool_decide (mType ast = CN) && hasType astParent DEGREE
     && hasType astGrandParent BVAR && hasType astGreatGrandParent DIFF
  then
    if doubleNeq utilities (convertToDouble utilities (mValue ast))
         (double_1_0 utilities)
    then
      diff ← astGreatGrandParent;
      right ← mRight diff;
      variable ← mVariable right;
      Some (addError
              (generatorError
                 ("The differential equation for variable '"
                  +:+ VariablePtr.name variable
                  +:+ "' in component '" +:+ VariablePtr.parentComponentName variable
                  +:+ "' of model '" +:+ VariablePtr.parentModelName variable
                  +:+ "' must be of the first order."))
              generator)
    else Some generator
  else Some generator.

(** The third part: a variable used in an ODE is a state. *)
Definition checkState (astParent : option t) (ast : t) (generator : Generator)
    : option Generator :=
  if bool_decide (mType ast = CI) && hasType astParent DIFF
  then
    variable ← mVariable ast;
    '(generatorVariable, generator) ←
      onVariables (generatorVariable variable) generator;
    Some (set_mVariables
            (modify GeneratorVariableImpl.makeState generatorVariable
               (mVariables (mPimpl generator)))
            generator)
  else Some generator.

(** [processEquationAst(ast)], given the three owners above [ast]
    ([ast->mParent] and the two above it). *)
Fixpoint processEquationAst (astParent astGrandParent astGreatGrandParent : option t)
    (ast : t) (generator : Generator) {struct ast} : option Generator :=
  generator ← checkVariableOfIntegration astParent astGrandParent ast generator;
  generator ← checkFirstOrder astParent astGrandParent astGreatGrandParent ast generator;
  generator ← checkState astParent ast generator;
  match ast with
  | Node _ _ _ astLeft astRight =>
      generator ←
        match astLeft with
        | Some astLeft =>
            processEquationAst (Some ast) astParent astGrandParent astLeft generator
        | None => Some generator
        end;
      match astRight with
      | Some astRight =>
          processEquationAst (Some ast) astParent astGrandParent astRight generator
      | None => Some generator
      end
  end.

(** The loop over [mEquations] that calls [processEquationAst]. *)
Fixpoint processEquationAsts (equations : list GeneratorEquationImpl.t)
    (generator : Generator) : option Generator :=
  match equations with
  | [] => Some generator
  | equation :: equations =>
      generator ←
        processEquationAst None None None (GeneratorEquationImpl.mAst equation)
          generator;
      processEquationAsts equations generator
  end.

(** The loop that gives an index to the constant variables; [variable]
    runs over the handles of [mVariables]. *)
Fixpoint indexConstants (variables : list nat) (heap : Heap) (variableIndex : Z)
    : Heap * Z :=
  match variables with
  | [] => (heap, variableIndex)
  | variable :: variables =>
      if bool_decide (GeneratorVariableImpl.mType (deref (objects heap) variable)
                      = GeneratorVariableImpl.CONSTANT)
      then
        let variableIndex := pre_increment variableIndex in
        indexConstants variables (assign_mIndex variable variableIndex heap)
          variableIndex
      else indexConstants variables heap variableIndex
  end.

(** One pass over [mEquations]: [relevantCheck] and the state after it. *)
Fixpoint checkEquations (equations : list GeneratorEquationImpl.t) (heap : Heap)
    (c : Counters) (relevantCheck : bool)
    : bool * list GeneratorEquationImpl.t * Heap * Counters :=
  match equations with
  | [] => (relevantCheck, [], heap, c)
  | equation :: equations =>
      let '(relevant, equation, heap, c) :=
        GeneratorEquationImpl.check equation heap c in
      let '(relevantCheck, equations, heap, c) :=
        checkEquations equations heap c (relevant || relevantCheck) in
      (relevantCheck, equation :: equations, heap, c)
  end.

(** The loop [for (;;)]: at most [fuel] passes; [None] when the passes run
    out before one of them makes no relevant check. *)
Fixpoint causalize (fuel : nat) (equations : list GeneratorEquationImpl.t)
    (heap : Heap) (c : Counters)
    : option (list GeneratorEquationImpl.t * Heap * Counters) :=
  match fuel with
  | O => None
  | S fuel =>
      let '(relevantCheck, equations, heap, c) :=
        checkEquations equations heap c false in
      if negb relevantCheck then Some (equations, heap, c)
      else causalize fuel equations heap c
  end.

(** The last loop: every variable must have a valid type. *)
Fixpoint checkVariables (variables : list GeneratorVariableImpl.t)
    (generator : Generator) : Generator :=
  match variables with
  | [] => generator
  | variable :: variables =>
      let errorType :=
        match GeneratorVariableImpl.mType variable with
        | GeneratorVariableImpl.UNKNOWN => "is of unknown type"
        | GeneratorVariableImpl.SHOULD_BE_STATE =>
            "is used in an ODE, but it is not initialised"
        | _ => ""
        end in
      let generator :=
        if negb (bool_decide (errorType = "")) then
          let realVariable := GeneratorVariableImpl.mVariable variable in
          addError
            (generatorError
               ("Variable '" +:+ VariablePtr.name realVariable
                +:+ "' in component '" +:+ VariablePtr.parentComponentName realVariable
                +:+ "' of model '" +:+ VariablePtr.parentModelName realVariable
                +:+ "' " +:+ errorType +:+ "."))
            generator
        else generator in
      checkVariables variables generator
  end.

(** The state of [processModel] once it has reset the generator, walked
    the components and processed the trees of the equations. *)
Definition processedAsts (walk : ComponentWalk) (generator : Generator)
    : option Generator :=
  let generator :=
    mkGenerator (errors generator ++ walkErrors walk)
      (mkGeneratorImpl true None
         (mkHeap (map GeneratorVariableImpl.new (walkVariables walk)) [])
         (map walkedEquation (walkEquations walk))
         (mProfile (mPimpl generator))) in
  if (errorCount generator =? 0)%nat
  then processEquationAsts (mEquations (mPimpl generator)) generator
  else Some generator.

(** The rest of [processModel]: the indices of the constants, the loop
    over the equations and the check of the variables. *)
Definition causalization (fuel : nat) (generator : Generator) : option Generator :=
  let variableIndex := MAX_SIZE_T in
  let '(heap, variableIndex) :=
    indexConstants (seq 0 (length (mVariables (mPimpl generator))))
      (mHeap (mPimpl generator)) variableIndex in
  let generator := set_mHeap heap generator in
  let equationOrder := 0 in
  let stateIndex := MAX_SIZE_T in
  generator ←
    (if (errorCount generator =? 0)%nat then
       '(equations, heap, c) ←
         causalize fuel (mEquations (mPimpl generator)) heap
           (mkCounters equationOrder stateIndex variableIndex);
       Some (set_mEquations equations (set_mHeap heap generator))
     else Some generator);
  if (errorCount generator =? 0)%nat
  then Some (checkVariables (mVariables (mPimpl generator)) generator)
  else Some generator.

(** [processModel(model)], where [walk] is what the components of
    [model] give and [fuel] bounds the number of passes over the
    equations. *)
Definition processModel (fuel : nat) (walk : ComponentWalk) (generator : Generator)
    : option Generator :=
  generator ← processedAsts walk generator;
  causalization fuel generator.

End WithUtilities.
End Processing.

(** ** The queries of [Generator] *)

Module ModelType.
Inductive t : Type := UNKNOWN | ALGEBRAIC | ODE.
End ModelType.






Module Blocks.

Section WithUtilities.

Variable utilities : Utilities.

(** The loop of [initializeVariables] over [mVariables]; [res] is the
    text so far and [variables] the handles still to visit. *)
Fixpoint initialValueLines (profile : GeneratorProfile) (variables : list nat)
    (res : string) : Gen string :=
  match variables with
  | [] => ret res
  | variable :: variables =>
      record <- load variable ;;
      if bool_decide (GeneratorVariableImpl.mType record
                      = GeneratorVariableImpl.STATE)
         || bool_decide (GeneratorVariableImpl.mType record
                         = GeneratorVariableImpl.CONSTANT)
      then
        name <- Emitter.generateVariableName profile
                  (GeneratorVariableImpl.mVariable record) None ;;
        initialValueLines profile variables
          (res +:+ name +:+ " = "
           +:+ VariablePtr.initialValue (GeneratorVariableImpl.mVariable record)
           +:+ commandSeparatorString profile +:+ newline)
      else initialValueLines profile variables res
  end.

(** The loop over [mEquations] of the four blocks: one statement for
    every equation of type [type]. *)
Fixpoint equationLines (profile : GeneratorProfile)
    (type : GeneratorEquationImpl.Type_)
    (equations : list GeneratorEquationImpl.t) (res : string) : Gen string :=
  match equations with
  | [] => ret res
  | equation :: equations =>
      if bool_decide (GeneratorEquationImpl.mType equation = type)
      then
        code <- Emitter.generateCode utilities profile None false
                  (GeneratorEquationImpl.mAst equation) ;;
        equationLines profile type equations
          (res +:+ code +:+ commandSeparatorString profile +:+ newline)
      else equationLines profile type equations res
  end.

Definition initializeVariables (generator : Generator)
    : option (string * Generator) :=
  if negb (errorCount generator =? 0)%nat then Some ("", generator)
  else
    let impl := mPimpl generator in
    onVariables
      (res <- initialValueLines (mProfile impl)
                (seq 0 (length (mVariables impl))) "" ;;
       equationLines (mProfile impl) GeneratorEquationImpl.TRUE_CONSTANT
         (mEquations impl) res)
      generator.

Definition computeConstantEquations (generator : Generator)
    : option (string * Generator) :=
  if negb (errorCount generator =? 0)%nat then Some ("", generator)
  else
    let impl := mPimpl generator in
    onVariables
      (equationLines (mProfile impl)
         GeneratorEquationImpl.VARIABLE_BASED_CONSTANT (mEquations impl) "")
      generator.

Definition computeRateEquations (generator : Generator)
    : option (string * Generator) :=
  if negb (errorCount generator =? 0)%nat then Some ("", generator)
  else
    let impl := mPimpl generator in
    onVariables
      (equationLines (mProfile impl) GeneratorEquationImpl.RATE
         (mEquations impl) "")
      generator.

Definition computeAlgebraicEquations (generator : Generator)
    : option (string * Generator) :=
  if negb (errorCount generator =? 0)%nat then Some ("", generator)
  else
    let impl := mPimpl generator in
    onVariables
      (equationLines (mProfile impl) GeneratorEquationImpl.ALGEBRAIC
         (mEquations impl) "")
      generator.

End WithUtilities.
End Blocks.

(** ** Concrete inputs *)

Module Samples.

(** A profile in the style of C, with a function for powers. *)
Definition cProfile : GeneratorProfile :=
  mkProfile " = " " == " " != " " < " " <= " " > " " >= "
    "+" "-" "*" "/" false "pow" "sqrt" "sqr" "fabs" "exp" "log" "log10"
    "ceil" "floor" "fact" " && " " || " false "xor" "!"
    "min" "max" "gcd" "lcm"
    "sin" "cos" "tan" "sec" "csc" "cot" "sinh" "cosh" "tanh" "sech" "csch"
    "coth" "asin" "acos" "atan" "asec" "acsc" "acot" "asinh" "acosh" "atanh"
    "asech" "acsch" "acoth" "fmod"
    true "(#cond)?#if" ":#else" "piecewise(#cond, #if" ", #else)"
    "true" "false" "exp(1.0)" "M_PI" "1.0/0.0" "sqrt(-1.0)"
    "voi" "states" "rates" "variables" ";".

(** [cProfile] with [^^] as an operator for powers. *)
Definition powerOperatorProfile : GeneratorProfile :=
  mkProfile " = " " == " " != " " < " " <= " " > " " >= "
    "+" "-" "*" "/" true "^^" "sqrt" "sqr" "fabs" "exp" "log" "log10"
    "ceil" "floor" "fact" " && " " || " false "xor" "!"
    "min" "max" "gcd" "lcm"
    "sin" "cos" "tan" "sec" "csc" "cot" "sinh" "cosh" "tanh" "sech" "csch"
    "coth" "asin" "acos" "atan" "asec" "acsc" "acot" "asinh" "acosh" "atanh"
    "asech" "acsch" "acoth" "fmod"
    true "(#cond)?#if" ":#else" "piecewise(#cond, #if" ", #else)"
    "true" "false" "exp(1.0)" "M_PI" "1.0/0.0" "sqrt(-1.0)"
    "voi" "states" "rates" "variables" ";".

(** [cProfile] with [:=] for an assignment. *)
Definition pascalAssignmentProfile : GeneratorProfile :=
  mkProfile " := " " == " " != " " < " " <= " " > " " >= "
    "+" "-" "*" "/" false "pow" "sqrt" "sqr" "fabs" "exp" "log" "log10"
    "ceil" "floor" "fact" " && " " || " false "xor" "!"
    "min" "max" "gcd" "lcm"
    "sin" "cos" "tan" "sec" "csc" "cot" "sinh" "cosh" "tanh" "sech" "csch"
    "coth" "asin" "acos" "atan" "asec" "acsc" "acot" "asinh" "acosh" "atanh"
    "asech" "acsch" "acoth" "fmod"
    true "(#cond)?#if" ":#else" "piecewise(#cond, #if" ", #else)"
    "true" "false" "exp(1.0)" "M_PI" "1.0/0.0" "sqrt(-1.0)"
    "voi" "states" "rates" "variables" ";".

(** Numbers compared as they are written: enough for the literals
    [0.5], [1.0], [2.0] and [10.0] and for text that is no number. *)
Definition literalUtilities : Utilities :=
  mkUtilities string (fun text => text) String.eqb
    (fun a b => negb (String.eqb a b)) "0.5" "1.0" "2.0" "10.0".

Definition variable (ident : nat) (name initialValue : string) : VariablePtr.t :=
  VariablePtr.mk ident name initialValue "main" "model" [].

Definition ci (v : VariablePtr.t) : GeneratorEquationAstImpl.t :=
  GeneratorEquationAstImpl.Node GeneratorEquationAstImpl.CI "" (Some v) None None.

Definition cn (value : string) : GeneratorEquationAstImpl.t :=
  GeneratorEquationAstImpl.Node GeneratorEquationAstImpl.CN value None None None.

Definition binary (type : GeneratorEquationAstImpl.Type_)
    (left right : GeneratorEquationAstImpl.t) : GeneratorEquationAstImpl.t :=
  GeneratorEquationAstImpl.Node type "" None (Some left) (Some right).

Definition unary (type : GeneratorEquationAstImpl.Type_)
    (left : GeneratorEquationAstImpl.t) : GeneratorEquationAstImpl.t :=
  GeneratorEquationAstImpl.Node type "" None (Some left) None.

(** A model with the variable of integration [time], the state [x], the
    constant [k] and the variable [a], and the two equations
    [dx/dtime = a*x] and [a = k+3.0], as the walk of its component leaves
    it: the records in the order in which the equations mention the
    variables, and each equation with its variables and ODE variables. *)
Definition time : VariablePtr.t := variable 1 "time" "".
Definition x : VariablePtr.t := variable 2 "x" "1.0".
Definition a : VariablePtr.t := variable 3 "a" "".
Definition k : VariablePtr.t := variable 4 "k" "2.0".

Definition rateEquation : GeneratorEquationAstImpl.t :=
  binary GeneratorEquationAstImpl.EQ
    (binary GeneratorEquationAstImpl.DIFF
       (unary GeneratorEquationAstImpl.BVAR (ci time)) (ci x))
    (binary GeneratorEquationAstImpl.TIMES (ci a) (ci x)).

Definition constantEquation : GeneratorEquationAstImpl.t :=
  binary GeneratorEquationAstImpl.EQ (ci a)
    (binary GeneratorEquationAstImpl.PLUS (ci k) (cn "3.0")).

Definition growthWalk : ComponentWalk :=
  mkComponentWalk [time; x; a; k]
    [mkWalkedEquation rateEquation [2; 1]%nat [0; 1]%nat;
     mkWalkedEquation constantEquation [2; 3]%nat []]
    [].


(** The equation [a = 3.0] before its first check, with [a] UNKNOWN. *)
Definition trueConstantEquation : GeneratorEquationImpl.t :=
  walkedEquation (mkWalkedEquation (binary GeneratorEquationAstImpl.EQ (ci a) (cn "3.0"))
                    [0%nat] []).

Definition trueConstantHeap : Heap := mkHeap [GeneratorVariableImpl.new a] [].

(** Two equations that wait for each other: [a = b] and [b = a]. *)
Definition b : VariablePtr.t := variable 5 "b" "".

Definition circularEquations : list GeneratorEquationImpl.t :=
  [walkedEquation
     (mkWalkedEquation (binary GeneratorEquationAstImpl.EQ (ci a) (ci b))
        [0; 1]%nat []);
   walkedEquation
     (mkWalkedEquation (binary GeneratorEquationAstImpl.EQ (ci b) (ci a))
        [1; 0]%nat [])].

Definition circularHeap : Heap :=
  mkHeap [GeneratorVariableImpl.new a; GeneratorVariableImpl.new b] [].

(** A generator that has processed a model, holds a STATE and a CONSTANT
    record, and has recorded an error. *)
Definition failedGenerator : Generator :=
  mkGenerator [Error.mk "Variable 'a' in component 'main' of model 'model' is of unknown type."
                 Error.GENERATOR]
    (mkGeneratorImpl true None
       (mkHeap [GeneratorVariableImpl.mk GeneratorVariableImpl.STATE 0 x true;
                GeneratorVariableImpl.mk GeneratorVariableImpl.CONSTANT 0 k false;
                GeneratorVariableImpl.new a]
               [])
       [] cProfile).

(** Records for [a] and [b] once they are computed, for the emitter. *)
Definition computedStore : Store :=
  [GeneratorVariableImpl.mk GeneratorVariableImpl.ALGEBRAIC 0 a true;
   GeneratorVariableImpl.mk GeneratorVariableImpl.ALGEBRAIC 1 b true].

End Samples.

(** ** Views of a state, used to state its properties *)

(** The variable that [determine] computes for an equation, with the type
    that the variable has once it is computed; [None] when [determine]
    computes nothing. *)
Definition determined (store : Store) (self : GeneratorEquationImpl.t)
    : option (nat * GeneratorVariableImpl.Type_) :=
  match GeneratorEquationImpl.soleVariable self with
  | Some variable =>
      if (variable <? length store)%nat then
        let before := GeneratorVariableImpl.mType (deref store variable) in
        let type :=
          if bool_decide (before = GeneratorVariableImpl.UNKNOWN)
          then GeneratorEquationImpl.computedType self else before in
        if bool_decide (type = GeneratorVariableImpl.STATE)
           || bool_decide (type = GeneratorVariableImpl.COMPUTED_TRUE_CONSTANT)
           || bool_decide (type = GeneratorVariableImpl.COMPUTED_VARIABLE_BASED_CONSTANT)
           || bool_decide (type = GeneratorVariableImpl.ALGEBRAIC)
        then Some (variable, type)
        else None
      else None
  | None => None
  end.

(** The number of equations that have no order yet. *)
Definition unordered (equations : list GeneratorEquationImpl.t) : nat :=
  length (List.filter (fun equation => GeneratorEquationImpl.mOrder equation =? 0)
            equations).

(** An order that has been assigned. *)
Definition nonzero (order : Z) : bool := negb (order =? 0).

(** The orders that equations have received, in the order of the
    equations. *)
Definition assignedOrders (equations : list GeneratorEquationImpl.t) : list Z :=
  List.filter nonzero (map GeneratorEquationImpl.mOrder equations).

(** The indices given to STATE variables, in the order in which they were
    assigned. *)
Definition stateIndices (writes : list IndexWrite) : list Z :=
  map writtenIndex
    (List.filter (fun write => bool_decide (writtenType write
                                            = GeneratorVariableImpl.STATE))
       (rev writes)).

(** The indices given to variables that are no STATE, in the order in which
    they were assigned. *)
Definition variableIndices (writes : list IndexWrite) : list Z :=
  map writtenIndex
    (List.filter (fun write => negb (bool_decide (writtenType write
                                                  = GeneratorVariableImpl.STATE)))
       (rev writes)).

(** [0, 1, ..., n - 1] *)
Definition firstIndices (n : nat) : list Z := map Z.of_nat (seq 0 n).

(** What [determine] leaves behind when it computes [variable], of type
    [type]: the index of the variable, the counters, the heap and the
    equation. *)
Definition indexAfter (type : GeneratorVariableImpl.Type_) (c : Counters) : Z :=
  if bool_decide (type = GeneratorVariableImpl.STATE)
  then pre_increment (stateIndex c)
  else pre_increment (variableIndex c).

Definition countersAfter (type : GeneratorVariableImpl.Type_) (c : Counters)
    : Counters :=
  mkCounters (pre_increment (equationOrder c))
    (if bool_decide (type = GeneratorVariableImpl.STATE)
     then pre_increment (stateIndex c) else stateIndex c)
    (if bool_decide (type = GeneratorVariableImpl.STATE)
     then variableIndex c else pre_increment (variableIndex c)).

Definition heapAfter (variable : nat) (type : GeneratorVariableImpl.Type_)
    (c : Counters) (heap : Heap) : Heap :=
  mkHeap
    (<[variable :=
         GeneratorVariableImpl.mk type (indexAfter type c)
           (GeneratorVariableImpl.mVariable (deref (objects heap) variable))
           true]> (objects heap))
    (mkIndexWrite variable type (indexAfter type c) :: mIndexWrites heap).

Definition equationAfter (type : GeneratorVariableImpl.Type_) (c : Counters)
    (self : GeneratorEquationImpl.t) : GeneratorEquationImpl.t :=
  GeneratorEquationImpl.mk (GeneratorEquationImpl.equationType type)
    (pre_increment (equationOrder c)) (GeneratorEquationImpl.mAst self)
    (GeneratorEquationImpl.mVariables self) (GeneratorEquationImpl.mOdeVariables self)
    (GeneratorEquationImpl.mTrulyConstant self)
    (GeneratorEquationImpl.mVariableBasedConstant self).

(** [orders] holds each of [1, ..., n] once, and otherwise only [0]. *)
Definition ordersExact (orders : list Z) (n : Z) : Prop :=
  0 <= n
  /\ Z.of_nat (length (List.filter nonzero orders)) = n
  /\ forall k, k <> 0 ->
       count_occ Z.eq_dec orders k
       = if (1 <=? k) && (k <=? n) then 1%nat else 0%nat.

(** [1, 2, ..., n] *)
Definition firstOrders (n : nat) : list Z := map Z.of_nat (seq 1 n).

(** An equation keeps an order that it has. *)
Definition keepsOrder (equation equation' : GeneratorEquationImpl.t) : Prop :=
  GeneratorEquationImpl.mOrder equation <> 0 ->
  GeneratorEquationImpl.mOrder equation' = GeneratorEquationImpl.mOrder equation.

(** From [generator] to [generator'], the equations and the history of the
    indices are as they were and no error has been removed. *)
Definition keepsEquations (generator generator' : Generator) : Prop :=
  mEquations (mPimpl generator') = mEquations (mPimpl generator)
  /\ mIndexWrites (mHeap (mPimpl generator')) = mIndexWrites (mHeap (mPimpl generator))
  /\ (length (errors generator) <= length (errors generator'))%nat.

(** The heap and the variable counter of [processModel] once the constants
    have their index. *)
Definition constantsIndexed (generator : Generator) : Heap * Z :=
  Processing.indexConstants (seq 0 (length (mVariables (mPimpl generator))))
    (mHeap (mPimpl generator)) MAX_SIZE_T.

(** The invariant of the two index counters, for a store of [size] records:
    no record has been given an index twice; a record that has an index
    holds it, and is a constant or is computed; the indices handed out to
    states are [0, 1, ...] in this order and the state counter is the last
    of them ([MAX_SIZE_T] before the first); likewise for the other
    variables and the variable counter. *)
Definition indexInvariant (size : nat) (heap : Heap)
    (stateIndex variableIndex : Z) : Prop :=
  let store := objects heap in
  let writes := mIndexWrites heap in
  length store = size
  /\ NoDup (map written writes)
  /\ (forall write,
        write ∈ writes ->
        (written write < size)%nat
        /\ GeneratorVariableImpl.mIndex (deref store (written write))
           = writtenIndex write
        /\ (GeneratorVariableImpl.mType (deref store (written write))
            = GeneratorVariableImpl.CONSTANT
            \/ GeneratorVariableImpl.mComputed (deref store (written write)) = true))
  /\ stateIndices writes = firstIndices (length (stateIndices writes))
  /\ stateIndex
     = (Z.of_nat (length (stateIndices writes)) - 1) mod SIZE_T_MODULUS
  /\ variableIndices writes = firstIndices (length (variableIndices writes))
  /\ variableIndex
     = (Z.of_nat (length (variableIndices writes)) - 1) mod SIZE_T_MODULUS.



(** The operands of a power that the emitter encloses in parentheses: on
    the left, a relational operator, a minus, a times, a divide, a logical
    or bitwise operator, a piecewise statement, or a plus with a right
    branch; on the right, the same without the minus and with a power or a
    root. *)
Definition powerLeftInParentheses (astLeft : GeneratorEquationAstImpl.t) : bool :=
  match GeneratorEquationAstImpl.mType astLeft with
  | GeneratorEquationAstImpl.EQEQ | GeneratorEquationAstImpl.NEQ
  | GeneratorEquationAstImpl.LT | GeneratorEquationAstImpl.LEQ
  | GeneratorEquationAstImpl.GT | GeneratorEquationAstImpl.GEQ
  | GeneratorEquationAstImpl.MINUS
  | GeneratorEquationAstImpl.TIMES | GeneratorEquationAstImpl.DIVIDE
  | GeneratorEquationAstImpl.AND | GeneratorEquationAstImpl.OR
  | GeneratorEquationAstImpl.XOR
  | GeneratorEquationAstImpl.PIECEWISE => true
  | GeneratorEquationAstImpl.PLUS => Emitter.hasRight astLeft
  | _ => false
  end.

Definition powerRightInParentheses (astRight : GeneratorEquationAstImpl.t) : bool :=
  match GeneratorEquationAstImpl.mType astRight with
  | GeneratorEquationAstImpl.EQEQ | GeneratorEquationAstImpl.NEQ
  | GeneratorEquationAstImpl.LT | GeneratorEquationAstImpl.LEQ
  | GeneratorEquationAstImpl.GT | GeneratorEquationAstImpl.GEQ
  | GeneratorEquationAstImpl.TIMES | GeneratorEquationAstImpl.DIVIDE
  | GeneratorEquationAstImpl.POWER | GeneratorEquationAstImpl.ROOT
  | GeneratorEquationAstImpl.AND | GeneratorEquationAstImpl.OR
  | GeneratorEquationAstImpl.XOR
  | GeneratorEquationAstImpl.PIECEWISE => true
  | GeneratorEquationAstImpl.PLUS => Emitter.hasRight astRight
  | _ => false
  end.

(** The rule of the specification for an operand of a power: in
    parentheses exactly when its top operator is relational, a binary
    minus, times, divide, power, root, logical or bitwise, piecewise, or a
    plus with a right branch. *)
Definition powerOperandInParenthesesAsSpecified
    (operand : GeneratorEquationAstImpl.t) : bool :=
  match GeneratorEquationAstImpl.mType operand with
  | GeneratorEquationAstImpl.EQEQ | GeneratorEquationAstImpl.NEQ
  | GeneratorEquationAstImpl.LT | GeneratorEquationAstImpl.LEQ
  | GeneratorEquationAstImpl.GT | GeneratorEquationAstImpl.GEQ
  | GeneratorEquationAstImpl.TIMES | GeneratorEquationAstImpl.DIVIDE
  | GeneratorEquationAstImpl.POWER | GeneratorEquationAstImpl.ROOT
  | GeneratorEquationAstImpl.AND | GeneratorEquationAstImpl.OR
  | GeneratorEquationAstImpl.XOR
  | GeneratorEquationAstImpl.PIECEWISE => true
  | GeneratorEquationAstImpl.MINUS
  | GeneratorEquationAstImpl.PLUS => Emitter.hasRight operand
  | _ => false
  end.

(** * Properties *)

(** ** The variable records behind their handles *)

Section StoreFacts.

Implicit Types (store : Store) (f : GeneratorVariableImpl.t -> GeneratorVariableImpl.t).


Lemma deref_insert_eq store (record : GeneratorVariableImpl.t) variable :
  (variable < length store)%nat ->
  deref (<[variable := record]> store) variable = record.
Proof. intros Hlt. unfold deref. by rewrite list_lookup_insert_eq. Qed.

Lemma deref_insert_ne store (record : GeneratorVariableImpl.t) variable other :
  variable <> other ->
  deref (<[variable := record]> store) other = deref store other.
Proof. intros Hne. unfold deref. by rewrite list_lookup_insert_ne. Qed.


Lemma length_modify store f variable :
  length (modify f variable store) = length store.
Proof. unfold modify. apply length_insert. Qed.

Lemma modify_dangling store f variable :
  (length store <= variable)%nat -> modify f variable store = store.
Proof. intros Hge. unfold modify. by apply list_insert_ge. Qed.

End StoreFacts.

(** ** The role transitions of a variable *)

Section Roles.
Import GeneratorVariableImpl.

(** C6.  Seeing a variable that carries a non-empty literal initial value
    ([setVariable]) turns UNKNOWN into CONSTANT and SHOULD_BE_STATE into
    STATE and leaves every other role as it is; seeing a variable as the
    dependent variable of an ODE ([makeState]) turns UNKNOWN into
    SHOULD_BE_STATE and CONSTANT into STATE, leaves every other role as it
    is, and does not change a record that is already SHOULD_BE_STATE or
    STATE at all. *)
Theorem role_transitions (variable : VariablePtr.t) (self : t) :
  VariablePtr.initialValue variable <> "" ->
  mType (setVariable variable self)
  = match mType self with
    | UNKNOWN => CONSTANT
    | SHOULD_BE_STATE => STATE
    | role => role
    end
  /\ mType (makeState self)
     = match mType self with
       | UNKNOWN => SHOULD_BE_STATE
       | CONSTANT => STATE
       | role => role
       end
  /\ (mType self = SHOULD_BE_STATE \/ mType self = STATE ->
      makeState self = self).
Proof.
  intros Hinit. unfold setVariable, makeState, VariablePtr.initialValueEmpty.
  rewrite bool_decide_eq_false_2 by exact Hinit. simpl.
  destruct self as [role index held computed]; simpl.
  destruct role; simpl; repeat split; try reflexivity;
    intros [Hrole | Hrole]; discriminate Hrole.
Qed.

Lemma role_transitions_witness :
  mType (setVariable Samples.x (mk UNKNOWN MAX_SIZE_T Samples.x false)) = CONSTANT
  /\ mType (makeState (mk UNKNOWN MAX_SIZE_T Samples.x false)) = SHOULD_BE_STATE.
Proof.
  destruct (role_transitions Samples.x (mk UNKNOWN MAX_SIZE_T Samples.x false))
    as (Hset & Hmake & _).
  - discriminate.
  - split; [exact Hset | exact Hmake].
Defined.

End Roles.

(** ** The queries of the facade *)

Section Facade.



(** C4.  Once an error is recorded, each of the four blocks is the empty
    text (and the query leaves the generator as it is). *)
Theorem blocks_empty_on_error (utilities : Utilities) (generator : Generator) :
  errors generator <> [] ->
  Blocks.initializeVariables utilities generator = Some ("", generator)
  /\ Blocks.computeConstantEquations utilities generator = Some ("", generator)
  /\ Blocks.computeRateEquations utilities generator = Some ("", generator)
  /\ Blocks.computeAlgebraicEquations utilities generator = Some ("", generator).
Proof.
  intros Herrors.
  assert (Hcount : (errorCount generator =? 0)%nat = false).
  { unfold errorCount. by destruct (errors generator). }
  unfold Blocks.initializeVariables, Blocks.computeConstantEquations,
    Blocks.computeRateEquations, Blocks.computeAlgebraicEquations.
  by rewrite Hcount.
Qed.

Lemma blocks_empty_on_error_witness :
  Blocks.initializeVariables Samples.literalUtilities Samples.failedGenerator
  = Some ("", Samples.failedGenerator)
  /\ Blocks.computeConstantEquations Samples.literalUtilities Samples.failedGenerator
     = Some ("", Samples.failedGenerator)
  /\ Blocks.computeRateEquations Samples.literalUtilities Samples.failedGenerator
     = Some ("", Samples.failedGenerator)
  /\ Blocks.computeAlgebraicEquations Samples.literalUtilities Samples.failedGenerator
     = Some ("", Samples.failedGenerator).
Proof.
  apply (blocks_empty_on_error Samples.literalUtilities Samples.failedGenerator).
  discriminate.
Defined.

End Facade.


(** ** One call of [check] *)

Section Check.
Import GeneratorEquationImpl.

Lemma soleVariable_app (self : t) (variable : nat) :
  mVariables self ++ mOdeVariables self = [variable] ->
  soleVariable self = Some variable.
Proof.
  unfold soleVariable.
  destruct (mVariables self) as [| v [| v' vs]];
    destruct (mOdeVariables self) as [| o [| o' os]]; simpl;
    intros Heq; try discriminate Heq; by inversion Heq.
Qed.

Lemma soleVariable_Some (self : t) (variable : nat) :
  soleVariable self = Some variable ->
  mVariables self ++ mOdeVariables self = [variable].
Proof.
  unfold soleVariable.
  destruct (mVariables self) as [| v [| v' vs]];
    destruct (mOdeVariables self) as [| o [| o' os]]; simpl;
    intros Heq; try discriminate Heq; try by inversion Heq.
  all: rewrite ?Nat.add_succ_r in Heq; simpl in Heq; try discriminate Heq.
Qed.

Lemma determine_fires (self : t) (heap : Heap) (c : Counters)
    (variable : nat) (type : GeneratorVariableImpl.Type_) :
  determined (objects heap) self = Some (variable, type) ->
  determine self heap c
  = (true, equationAfter type c self, heapAfter variable type c heap,
     countersAfter type c).
Proof.
  unfold determined, determine, equationAfter, heapAfter, countersAfter, indexAfter.
  destruct (soleVariable self) as [v |]; [| discriminate].
  destruct (v <? length (objects heap))%nat eqn:Hvalid; [| discriminate].
  apply Nat.ltb_lt in Hvalid.
  destruct heap as [store writes]. simpl objects in *.
  destruct (deref store v) as [before index held computed] eqn:Hrecord.
  simpl GeneratorVariableImpl.mType.
  destruct (bool_decide (before = GeneratorVariableImpl.UNKNOWN)) eqn:Hunknown.
  - unfold update, assign_mIndex, modify. simpl objects. simpl mIndexWrites.
    repeat (rewrite deref_insert_eq by (rewrite ?length_insert; exact Hvalid)).
    rewrite Hrecord. simpl GeneratorVariableImpl.mType.
    destruct (_ || _) eqn:Hfour; [| discriminate].
    intros [= <- <-].
    repeat (rewrite deref_insert_eq by (rewrite ?length_insert; exact Hvalid)).
    rewrite !list_insert_insert_eq.
    destruct (bool_decide (computedType self = GeneratorVariableImpl.STATE));
      rewrite ?Hrecord; reflexivity.
  - destruct (_ || _) eqn:Hfour; [| discriminate].
    intros [= <- <-].
    unfold update, assign_mIndex, modify. simpl objects. simpl mIndexWrites.
    rewrite Hrecord. simpl GeneratorVariableImpl.mType. rewrite Hfour.
    repeat (rewrite deref_insert_eq by (rewrite ?length_insert; exact Hvalid)).
    rewrite !list_insert_insert_eq.
    destruct (bool_decide (before = GeneratorVariableImpl.STATE));
      rewrite ?Hrecord; reflexivity.
Qed.

Lemma determine_idle (self : t) (heap : Heap) (c : Counters) :
  determined (objects heap) self = None ->
  determine self heap c = (false, self, heap, c).
Proof.
  unfold determined, determine.
  destruct (soleVariable self) as [v |]; [| reflexivity].
  destruct heap as [store writes]. simpl objects in *.
  destruct (v <? length store)%nat eqn:Hvalid.
  - apply Nat.ltb_lt in Hvalid.
    destruct (deref store v) as [before index held computed] eqn:Hrecord.
    simpl GeneratorVariableImpl.mType.
    destruct (bool_decide (before = GeneratorVariableImpl.UNKNOWN)) eqn:Hunknown.
    + unfold computedType.
      destruct (mTrulyConstant self), (mVariableBasedConstant self); discriminate.
    + simpl objects. rewrite Hrecord. simpl GeneratorVariableImpl.mType.
      destruct (_ || _); [discriminate | reflexivity].
  - apply Nat.ltb_ge in Hvalid. intros _.
    unfold update. simpl objects. simpl mIndexWrites.
    rewrite !modify_dangling by exact Hvalid.
    assert (Hdangling : deref store v = dangling)
      by (unfold deref; by rewrite lookup_ge_None_2).
    rewrite Hdangling. simpl. rewrite Hdangling. reflexivity.
Qed.

(** [check] on an equation that has an order, or is an overconstraint. *)
Lemma check_skips (self : t) (heap : Heap) (c : Counters) :
  mOrder self <> 0 \/ overconstraint (objects heap) self = true ->
  check self heap c = (false, self, heap, c).
Proof.
  unfold check. intros [Hordered | Hover].
  - apply Z.eqb_neq in Hordered. by rewrite Hordered.
  - rewrite Hover. by destruct (negb _).
Qed.

Lemma check_determines (self : t) (heap : Heap) (c : Counters) :
  mOrder self = 0 ->
  overconstraint (objects heap) self = false ->
  check self heap c = determine (stopTracking (objects heap) self) heap c.
Proof.
  unfold check. intros -> ->. reflexivity.
Qed.

(** C1.  Take an equation without an order that [check] does not skip as
    an overconstraint, and let exactly one variable remain in its two
    lists once the known variables are removed.  Then [check] gives that
    variable, if it is UNKNOWN, the type COMPUTED_TRUE_CONSTANT when the
    equation is still truly constant, else
    COMPUTED_VARIABLE_BASED_CONSTANT when it is still variable-based
    constant, else ALGEBRAIC; and if the variable then is a STATE, a
    computed constant or ALGEBRAIC, it receives the next value of the
    state counter (STATE) or of the variable counter (others), it is
    marked as computed, the equation becomes a RATE, TRUE_CONSTANT,
    VARIABLE_BASED_CONSTANT or ALGEBRAIC equation accordingly and
    receives the next order. *)
Theorem check_sole_variable (self : t) (heap : Heap) (c : Counters)
    (variable : nat) :
  let store := objects heap in
  mOrder self = 0 ->
  (forall v, mVariables self ++ mOdeVariables self = [v] ->
             GeneratorVariableImpl.mType (deref store v)
             = GeneratorVariableImpl.UNKNOWN) ->
  remove_if (knownVariable store) (mVariables self)
    ++ remove_if (knownOdeVariable store) (mOdeVariables self) = [variable] ->
  (variable < length store)%nat ->
  exists relevantCheck self' heap' c',
    check self heap c = (relevantCheck, self', heap', c')
    /\ let before := GeneratorVariableImpl.mType (deref store variable) in
       let record := deref (objects heap') variable in
       let type := GeneratorVariableImpl.mType record in
       (before = GeneratorVariableImpl.UNKNOWN ->
        type = if mTrulyConstant self'
               then GeneratorVariableImpl.COMPUTED_TRUE_CONSTANT
               else if mVariableBasedConstant self'
                    then GeneratorVariableImpl.COMPUTED_VARIABLE_BASED_CONSTANT
                    else GeneratorVariableImpl.ALGEBRAIC)
       /\ (before <> GeneratorVariableImpl.UNKNOWN -> type = before)
       /\ (type = GeneratorVariableImpl.STATE ->
           GeneratorVariableImpl.mIndex record = pre_increment (stateIndex c)
           /\ stateIndex c' = pre_increment (stateIndex c)
           /\ variableIndex c' = variableIndex c
           /\ mType self' = RATE)
       /\ (type = GeneratorVariableImpl.COMPUTED_TRUE_CONSTANT ->
           GeneratorVariableImpl.mIndex record = pre_increment (variableIndex c)
           /\ variableIndex c' = pre_increment (variableIndex c)
           /\ stateIndex c' = stateIndex c
           /\ mType self' = TRUE_CONSTANT)
       /\ (type = GeneratorVariableImpl.COMPUTED_VARIABLE_BASED_CONSTANT ->
           GeneratorVariableImpl.mIndex record = pre_increment (variableIndex c)
           /\ variableIndex c' = pre_increment (variableIndex c)
           /\ stateIndex c' = stateIndex c
           /\ mType self' = VARIABLE_BASED_CONSTANT)
       /\ (type = GeneratorVariableImpl.ALGEBRAIC ->
           GeneratorVariableImpl.mIndex record = pre_increment (variableIndex c)
           /\ variableIndex c' = pre_increment (variableIndex c)
           /\ stateIndex c' = stateIndex c
           /\ mType self' = ALGEBRAIC)
       /\ (type = GeneratorVariableImpl.STATE
           \/ type = GeneratorVariableImpl.COMPUTED_TRUE_CONSTANT
           \/ type = GeneratorVariableImpl.COMPUTED_VARIABLE_BASED_CONSTANT
           \/ type = GeneratorVariableImpl.ALGEBRAIC ->
           GeneratorVariableImpl.mComputed record = true
           /\ mOrder self' = pre_increment (equationOrder c)
           /\ equationOrder c' = pre_increment (equationOrder c)
           /\ relevantCheck = true).
Proof.
  intros store Horder Hguard Hsole Hvalid.
  assert (Hover : overconstraint store self = false).
  { unfold overconstraint.
    destruct (soleVariable self) as [v |] eqn:Hv; [| done].
    apply soleVariable_Some in Hv. apply Hguard in Hv. by rewrite Hv. }
  rewrite check_determines by assumption. fold store.
  assert (Hone : soleVariable (stopTracking store self) = Some variable)
    by (apply soleVariable_app; exact Hsole).
  destruct (determined store (stopTracking store self)) as [[v type] |] eqn:Hdet.
  - rewrite (determine_fires _ _ _ _ _ Hdet).
    unfold determined in Hdet. rewrite Hone in Hdet.
    apply Nat.ltb_lt in Hvalid. rewrite Hvalid in Hdet.
    apply Nat.ltb_lt in Hvalid. cbv zeta in Hdet.
    destruct (_ || _) eqn:Hfour in Hdet; [| discriminate].
    injection Hdet as <- Htype.
    do 4 eexists. split; [reflexivity |].
    unfold heapAfter, equationAfter, countersAfter, indexAfter. simpl objects.
    rewrite deref_insert_eq by exact Hvalid. simpl.
    rewrite <- Htype.
    destruct (GeneratorVariableImpl.mType (deref store variable)) eqn:Hbefore;
      simpl in *; try discriminate Hfour.
    2-5: repeat split; try done; intros; try done; congruence.
    unfold computedType; simpl.
    repeat match goal with
           | |- context [if ?b then _ else _] => destruct b eqn:?
           end;
      simpl; repeat split; try done; intros; try done; congruence.
  - rewrite (determine_idle _ _ _ Hdet).
    unfold determined in Hdet. rewrite Hone in Hdet.
    apply Nat.ltb_lt in Hvalid. rewrite Hvalid in Hdet.
    cbv zeta in Hdet.
    do 4 eexists. split; [reflexivity |]. fold store. simpl.
    destruct (GeneratorVariableImpl.mType (deref store variable)) eqn:Hbefore;
      simpl in Hdet; try discriminate Hdet.
    2-4: repeat split; try done; intros; try done;
         repeat match goal with H : _ \/ _ |- _ => destruct H end; congruence.
    exfalso.
    destruct (computedType (stopTracking store self)) eqn:Hcomputed;
      try discriminate Hdet;
      unfold computedType in Hcomputed;
      destruct (mTrulyConstant (stopTracking store self)),
               (mVariableBasedConstant (stopTracking store self));
      discriminate Hcomputed.
Qed.

(** The equation [a = 3.0], where [a] is UNKNOWN: [a] becomes a computed
    true constant with index 0 and the equation gets the order 1. *)
Lemma check_sole_variable_witness :
  exists relevantCheck self' heap' c',
    check Samples.trueConstantEquation Samples.trueConstantHeap
      (mkCounters 0 MAX_SIZE_T MAX_SIZE_T)
    = (relevantCheck, self', heap', c')
    /\ relevantCheck = true
    /\ mType self' = TRUE_CONSTANT
    /\ mOrder self' = 1
    /\ deref (objects heap') 0
       = GeneratorVariableImpl.mk GeneratorVariableImpl.COMPUTED_TRUE_CONSTANT 0
           Samples.a true.
Proof.
  destruct (check_sole_variable Samples.trueConstantEquation Samples.trueConstantHeap
              (mkCounters 0 MAX_SIZE_T MAX_SIZE_T) 0)
    as (relevantCheck & self' & heap' & c' & Hcheck & _).
  - reflexivity.
  - intros v [= <-]. reflexivity.
  - reflexivity.
  - simpl. lia.
  - exists relevantCheck, self', heap', c'.
    split; [exact Hcheck |].
    vm_compute in Hcheck. injection Hcheck as <- <- <- <-.
    repeat split; reflexivity.
Defined.

End Check.

(** ** What a call of [check] can do *)

Section CheckCases.
Import GeneratorEquationImpl.

(** Either [check] computes nothing: it returns [false], keeps the order
    of the equation, the heap and the counters; or the equation has no
    order and [check] computes one variable. *)
Lemma check_cases (self : t) (heap : Heap) (c : Counters) :
  (exists self',
      check self heap c = (false, self', heap, c)
      /\ mOrder self' = mOrder self
      /\ mType self' = mType self)
  \/ (mOrder self = 0
      /\ exists variable type,
           determined (objects heap) (stopTracking (objects heap) self)
           = Some (variable, type)
           /\ check self heap c
              = (true, equationAfter type c (stopTracking (objects heap) self),
                 heapAfter variable type c heap, countersAfter type c)).
Proof.
  destruct (Z.eq_dec (mOrder self) 0) as [Horder | Horder].
  - destruct (overconstraint (objects heap) self) eqn:Hover.
    + left. exists self. rewrite check_skips by (by right). done.
    + rewrite check_determines by assumption.
      destruct (determined (objects heap) (stopTracking (objects heap) self))
        as [[variable type] |] eqn:Hdet.
      * right. split; [exact Horder |]. exists variable, type.
        split; [reflexivity |]. by apply determine_fires.
      * left. exists (stopTracking (objects heap) self).
        rewrite determine_idle by exact Hdet. done.
  - left. exists self. rewrite check_skips by (by left). done.
Qed.

(** The variable that [check] computes is a record of the store that was
    not computed, and its new type is that of a state, of a computed
    constant or of an algebraic variable; it had that type already unless
    it was UNKNOWN. *)
Lemma determined_facts (store : Store) (self : t) (variable : nat)
    (type : GeneratorVariableImpl.Type_) :
  determined store (stopTracking store self) = Some (variable, type) ->
  (variable < length store)%nat
  /\ GeneratorVariableImpl.mComputed (deref store variable) = false
  /\ (type = GeneratorVariableImpl.STATE
      \/ type = GeneratorVariableImpl.COMPUTED_TRUE_CONSTANT
      \/ type = GeneratorVariableImpl.COMPUTED_VARIABLE_BASED_CONSTANT
      \/ type = GeneratorVariableImpl.ALGEBRAIC)
  /\ (GeneratorVariableImpl.mType (deref store variable) = GeneratorVariableImpl.UNKNOWN
      \/ GeneratorVariableImpl.mType (deref store variable) = type).
Proof.
  unfold determined.
  destruct (soleVariable (stopTracking store self)) as [v |] eqn:Hsole;
    [| discriminate].
  destruct (v <? length store)%nat eqn:Hvalid; [| discriminate].
  apply Nat.ltb_lt in Hvalid. cbv zeta.
  destruct (_ || _) eqn:Hfour; [| discriminate].
  intros [= <- <-]. split; [exact Hvalid |]. split.
  - apply soleVariable_Some in Hsole. simpl in Hsole.
    assert (Hin : v ∈ remove_if (knownVariable store) (mVariables self)
                  ++ remove_if (knownOdeVariable store) (mOdeVariables self))
      by (rewrite Hsole; by apply list_elem_of_singleton).
    apply elem_of_app in Hin. unfold remove_if in Hin.
    destruct Hin as [Hin | Hin]; apply list_elem_of_In, filter_In in Hin;
      destruct Hin as [_ Hknown]; apply negb_true_iff in Hknown.
    + unfold knownVariable in Hknown.
      by destruct (GeneratorVariableImpl.mComputed (deref store v)).
    + unfold knownOdeVariable in Hknown.
      by destruct (GeneratorVariableImpl.mComputed (deref store v)).
  - split.
    + repeat (apply orb_true_iff in Hfour; destruct Hfour as [Hfour | Hfour]);
        apply bool_decide_eq_true in Hfour; tauto.
    + destruct (bool_decide (GeneratorVariableImpl.mType (deref store v)
                             = GeneratorVariableImpl.UNKNOWN)) eqn:Hunknown.
      * left. by apply bool_decide_eq_true in Hunknown.
      * by right.
Qed.

End CheckCases.

(** ** The orders of the equations *)

Section Orders.
Import GeneratorEquationImpl Processing.

Lemma unordered_cons (equation : t) (equations : list t) :
  unordered (equation :: equations)
  = ((if (mOrder equation =? 0)%Z then 1 else 0) + unordered equations)%nat.
Proof. unfold unordered. simpl. by destruct (mOrder equation =? 0). Qed.

Lemma unordered_le_length (equations : list t) :
  (unordered equations <= length equations)%nat.
Proof. unfold unordered. apply filter_length_le. Qed.

Lemma pre_increment_small (x : Z) :
  0 <= x -> x + 1 < SIZE_T_MODULUS -> pre_increment x = x + 1.
Proof. intros. unfold pre_increment. apply Z.mod_small. lia. Qed.

(** One pass, as long as the order counter cannot wrap around: the
    counter grows by the number of equations that receive an order, an
    order once given stays, and the pass reports a relevant check exactly
    when the counter has grown. *)
Lemma checkEquations_progress (equations : list t) :
  forall (heap : Heap) (c : Counters) (relevantCheck : bool),
    0 <= equationOrder c ->
    equationOrder c + Z.of_nat (unordered equations) < SIZE_T_MODULUS ->
    exists relevantCheck' equations' heap' c',
      checkEquations equations heap c relevantCheck
      = (relevantCheck', equations', heap', c')
      /\ equationOrder c' + Z.of_nat (unordered equations')
         = equationOrder c + Z.of_nat (unordered equations)
      /\ equationOrder c <= equationOrder c'
      /\ relevantCheck' = relevantCheck || (equationOrder c <? equationOrder c')
      /\ Forall2 keepsOrder equations equations'.
Proof.
  induction equations as [| equation equations IH];
    intros heap c relevantCheck Hpos Hbound.
  - exists relevantCheck, [], heap, c. simpl.
    rewrite Z.ltb_irrefl, orb_false_r. repeat split; try lia. constructor.
  - rewrite unordered_cons in Hbound. simpl checkEquations.
    destruct (check_cases equation heap c)
      as [(self' & Hcheck & Horder & _)
         | (Horder & variable & type & _ & Hcheck)];
      rewrite Hcheck.
    + destruct (IH heap c (false || relevantCheck) Hpos)
        as (r & eqs' & heap' & c' & Hrest & Hsum & Hle & Hrel & Hkept);
        [destruct (mOrder equation =? 0); lia |].
      rewrite Hrest. exists r, (self' :: eqs'), heap', c'.
      split; [reflexivity |].
      rewrite !unordered_cons, Horder. repeat split; try lia; try done.
      constructor; [| exact Hkept].
      by intros _.
    + pose proof (unordered_le_length equations) as Hlen.
      rewrite Horder in Hbound. simpl in Hbound.
      assert (Hnext : pre_increment (equationOrder c) = equationOrder c + 1)
        by (apply pre_increment_small; lia).
      destruct (IH (heapAfter variable type c heap) (countersAfter type c)
                  (true || relevantCheck))
        as (r & eqs' & heap' & c' & Hrest & Hsum & Hle & Hrel & Hkept).
      { simpl. lia. }
      { simpl. lia. }
      rewrite Hrest.
      exists r, (equationAfter type c (stopTracking (objects heap) equation) :: eqs'),
        heap', c'.
      split; [reflexivity |].
      simpl in Hsum, Hle. rewrite Hnext in Hsum, Hle.
      rewrite !unordered_cons, Horder. simpl mOrder. rewrite Hnext.
      assert (Hnonzero : (equationOrder c + 1 =? 0) = false) by lia.
      rewrite Hnonzero. simpl.
      repeat split; try lia.
      * rewrite Hrel. simpl.
        assert (Hgrown : (equationOrder c <? equationOrder c') = true)
          by (apply Z.ltb_lt; lia).
        rewrite Hgrown. by rewrite orb_true_r.
      * constructor; [| exact Hkept]. intros Hordered. by rewrite Horder in Hordered.
Qed.

(** The loop ends within one pass more than there are equations without
    an order. *)
Lemma causalize_terminates (fuel : nat) :
  forall (equations : list t) (heap : Heap) (c : Counters),
    0 <= equationOrder c ->
    equationOrder c + Z.of_nat (unordered equations) < SIZE_T_MODULUS ->
    (unordered equations < fuel)%nat ->
    exists result, causalize fuel equations heap c = Some result.
Proof.
  induction fuel as [| fuel IH]; intros equations heap c Hpos Hbound Hfuel;
    [lia |].
  simpl causalize.
  destruct (checkEquations_progress equations heap c false Hpos Hbound)
    as (r & eqs' & heap' & c' & Hpass & Hsum & Hle & Hrel & _).
  rewrite Hpass. simpl in Hrel. subst r.
  destruct (equationOrder c <? equationOrder c') eqn:Hgrown; simpl.
  - apply Z.ltb_lt in Hgrown. apply IH; lia.
  - by eexists.
Qed.

(** C9.  The loop over the equations terminates.  As long as the order
    counter cannot wrap around (the loop starts with the counter at 0, so
    this says that fewer than 2^64 equations have no order), a pass
    reports a relevant check exactly when it gives an order to an
    equation that had none, no pass takes an order away, and the loop
    ends within one pass more than there are equations without an
    order. *)
Theorem causalization_terminates (equations : list t) (heap : Heap)
    (c : Counters) :
  0 <= equationOrder c ->
  equationOrder c + Z.of_nat (unordered equations) < SIZE_T_MODULUS ->
  (exists relevantCheck equations' heap' c',
      checkEquations equations heap c false
      = (relevantCheck, equations', heap', c')
      /\ (relevantCheck = true
          <-> (unordered equations' < unordered equations)%nat)
      /\ Forall2 keepsOrder equations equations'
      /\ 0 <= equationOrder c'
      /\ equationOrder c' + Z.of_nat (unordered equations') < SIZE_T_MODULUS)
  /\ forall fuel,
       (unordered equations < fuel)%nat ->
       exists result, causalize fuel equations heap c = Some result.
Proof.
  intros Hpos Hbound. split.
  - destruct (checkEquations_progress equations heap c false Hpos Hbound)
      as (r & eqs' & heap' & c' & Hpass & Hsum & Hle & Hrel & Hkept).
    exists r, eqs', heap', c'. split; [exact Hpass |].
    simpl in Hrel. subst r.
    split; [| repeat split; try lia; exact Hkept].
    split.
    + intros Hgrown. apply Z.ltb_lt in Hgrown. lia.
    + intros Hfewer. apply Z.ltb_lt. lia.
  - intros fuel Hfuel. by apply causalize_terminates.
Qed.

(** Two equations that wait for each other: the first pass makes no
    relevant check and the loop ends. *)
Lemma causalization_terminates_witness :
  exists result,
    causalize 3 Samples.circularEquations Samples.circularHeap
      (mkCounters 0 MAX_SIZE_T MAX_SIZE_T)
    = Some result.
Proof.
  destruct (causalization_terminates Samples.circularEquations Samples.circularHeap
              (mkCounters 0 MAX_SIZE_T MAX_SIZE_T)) as [_ Hloop].
  - simpl. lia.
  - vm_compute. reflexivity.
  - apply (Hloop 3%nat). vm_compute. lia.
Defined.

End Orders.

(** ** The orders form [1, ..., N] *)

Section OrdersExact.
Import GeneratorEquationImpl Processing.

Lemma ordersExact_same (outside rest : list Z) (n order : Z) :
  ordersExact (outside ++ order :: rest) n ->
  ordersExact ((outside ++ [order]) ++ rest) n.
Proof. by rewrite <- app_assoc. Qed.

Lemma ordersExact_bound (outside rest : list Z) (n : Z) :
  ordersExact (outside ++ 0 :: rest) n ->
  n <= Z.of_nat (length outside + length rest).
Proof.
  intros (_ & Hlength & _). rewrite <- Hlength.
  rewrite List.filter_app, length_app. simpl.
  pose proof (filter_length_le nonzero outside).
  pose proof (filter_length_le nonzero rest). lia.
Qed.

Lemma ordersExact_next (outside rest : list Z) (n : Z) :
  ordersExact (outside ++ 0 :: rest) n ->
  ordersExact ((outside ++ [n + 1]) ++ rest) (n + 1).
Proof.
  intros (Hpos & Hlength & Hcount). rewrite <- app_assoc. simpl.
  split; [lia |]. split.
  - rewrite List.filter_app, length_app in *. simpl in *.
    assert (Hnonzero : nonzero (n + 1) = true)
      by (unfold nonzero; apply negb_true_iff; lia).
    rewrite Hnonzero. simpl. lia.
  - intros k Hk. specialize (Hcount k Hk).
    rewrite count_occ_app in *.
    rewrite count_occ_cons_neq in Hcount by lia.
    destruct (Z.eq_dec (n + 1) k) as [<- | Hother].
    + rewrite count_occ_cons_eq by reflexivity.
      assert (H1 : (1 <=? n + 1) && (n + 1 <=? n) = false)
        by (apply andb_false_iff; right; lia).
      assert (H2 : (1 <=? n + 1) && (n + 1 <=? n + 1) = true)
        by (apply andb_true_iff; split; lia).
      rewrite H1 in Hcount. rewrite H2. lia.
    + rewrite count_occ_cons_neq by exact Hother. rewrite Hcount.
      destruct (1 <=? k) eqn:H1; simpl; [| reflexivity].
      destruct (k <=? n) eqn:H2, (k <=? n + 1) eqn:H3; try reflexivity; lia.
Qed.

(** One pass keeps the orders exact. *)
Lemma checkEquations_orders (equations : list t) :
  forall (heap : Heap) (c : Counters) (relevantCheck : bool) (outside : list Z),
    ordersExact (outside ++ map mOrder equations) (equationOrder c) ->
    Z.of_nat (length outside + length equations) < SIZE_T_MODULUS ->
    exists relevantCheck' equations' heap' c',
      checkEquations equations heap c relevantCheck
      = (relevantCheck', equations', heap', c')
      /\ ordersExact (outside ++ map mOrder equations') (equationOrder c')
      /\ length equations' = length equations.
Proof.
  induction equations as [| equation equations IH];
    intros heap c relevantCheck outside Hexact Hbound.
  - by exists relevantCheck, [], heap, c.
  - simpl checkEquations. simpl map in Hexact. simpl length in Hbound.
    destruct (check_cases equation heap c)
      as [(self' & Hcheck & Horder & _)
         | (Horder & variable & type & _ & Hcheck)];
      rewrite Hcheck.
    + destruct (IH heap c (false || relevantCheck) (outside ++ [mOrder equation]))
        as (r & eqs' & heap' & c' & Hrest & Hexact' & Hlength).
      { by apply ordersExact_same. }
      { rewrite length_app. simpl. lia. }
      rewrite Hrest. exists r, (self' :: eqs'), heap', c'.
      split; [reflexivity |]. split; [| simpl; lia].
      simpl. rewrite Horder. by rewrite <- app_assoc in Hexact'.
    + rewrite Horder in Hexact.
      pose proof (ordersExact_bound _ _ _ Hexact) as Hn.
      rewrite length_map in Hn.
      assert (Hnext : pre_increment (equationOrder c) = equationOrder c + 1).
      { apply pre_increment_small; [apply Hexact | lia]. }
      destruct (IH (heapAfter variable type c heap) (countersAfter type c)
                  (true || relevantCheck) (outside ++ [equationOrder c + 1]))
        as (r & eqs' & heap' & c' & Hrest & Hexact' & Hlength).
      { simpl. rewrite Hnext. by apply ordersExact_next. }
      { rewrite length_app. simpl. lia. }
      rewrite Hrest.
      exists r, (equationAfter type c (stopTracking (objects heap) equation) :: eqs'),
        heap', c'.
      split; [reflexivity |]. split; [| simpl; lia].
      simpl. rewrite Hnext. by rewrite <- app_assoc in Hexact'.
Qed.

(** The loop keeps the orders exact. *)
Lemma causalize_orders (fuel : nat) :
  forall (equations : list t) (heap : Heap) (c : Counters)
         (equations' : list t) (heap' : Heap) (c' : Counters),
    ordersExact (map mOrder equations) (equationOrder c) ->
    Z.of_nat (length equations) < SIZE_T_MODULUS ->
    causalize fuel equations heap c = Some (equations', heap', c') ->
    ordersExact (map mOrder equations') (equationOrder c').
Proof.
  induction fuel as [| fuel IH];
    intros equations heap c equations' heap' c' Hexact Hbound Hloop;
    [discriminate |].
  simpl in Hloop.
  destruct (checkEquations_orders equations heap c false [] Hexact Hbound)
    as (r & eqs1 & heap1 & c1 & Hpass & Hexact1 & Hlength).
  rewrite Hpass in Hloop. destruct r; simpl in Hloop.
  - apply (IH eqs1 heap1 c1 equations' heap' c'); [exact Hexact1 | lia | exact Hloop].
  - by injection Hloop as <- <- <-.
Qed.

Lemma count_occ_firstOrders (n : nat) (k : Z) :
  count_occ Z.eq_dec (firstOrders n) k
  = if (1 <=? k) && (k <=? Z.of_nat n) then 1%nat else 0%nat.
Proof.
  unfold firstOrders. induction n as [| n IH].
  - simpl seq. simpl map. simpl count_occ.
    destruct (Z.leb_spec 1 k), (Z.leb_spec k (Z.of_nat 0)); simpl;
      try reflexivity; lia.
  - rewrite seq_S, map_app, count_occ_app, IH. simpl map.
    destruct (Z.eq_dec (Z.of_nat (1 + n)) k) as [<- | Hother].
    + rewrite count_occ_cons_eq by reflexivity. simpl count_occ.
      destruct (Z.leb_spec 1 (Z.of_nat (1 + n))),
               (Z.leb_spec (Z.of_nat (1 + n)) (Z.of_nat n)),
               (Z.leb_spec (Z.of_nat (1 + n)) (Z.of_nat (S n))); simpl;
        try reflexivity; lia.
    + rewrite count_occ_cons_neq by exact Hother. simpl count_occ.
      destruct (Z.leb_spec 1 k), (Z.leb_spec k (Z.of_nat n)),
               (Z.leb_spec k (Z.of_nat (S n))); simpl;
        try reflexivity; lia.
Qed.

Lemma count_occ_nonzero (orders : list Z) (k : Z) :
  count_occ Z.eq_dec (List.filter nonzero orders) k
  = if k =? 0 then 0%nat else count_occ Z.eq_dec orders k.
Proof.
  induction orders as [| order orders IH]; simpl.
  - by destruct (k =? 0).
  - unfold nonzero at 1. destruct (order =? 0) eqn:Hzero; simpl.
    + rewrite IH. destruct (Z.eq_dec order k) as [<- | Hother].
      * by rewrite Hzero.
      * reflexivity.
    + rewrite IH. destruct (Z.eq_dec order k) as [<- | Hother].
      * by rewrite Hzero.
      * reflexivity.
Qed.

(** Exact orders are a permutation of [1, ..., N], where [N] is the
    number of orders given. *)
Lemma ordersExact_Permutation (orders : list Z) (n : Z) :
  ordersExact orders n ->
  Permutation (List.filter nonzero orders)
    (firstOrders (length (List.filter nonzero orders))).
Proof.
  intros (Hpos & Hlength & Hcount).
  apply (Permutation_count_occ Z.eq_dec). intros k.
  rewrite count_occ_nonzero, count_occ_firstOrders, Hlength.
  destruct (k =? 0) eqn:Hzero.
  - assert (H1 : (1 <=? k) = false) by lia. by rewrite H1.
  - apply Hcount. lia.
Qed.

End OrdersExact.

(** ** The first half of [processModel] *)

Section ProcessedAsts.
Import GeneratorEquationAstImpl Processing.

Variable utilities : Utilities.

Lemma keepsEquations_refl (generator : Generator) :
  keepsEquations generator generator.
Proof. by repeat split. Qed.

Lemma keepsEquations_trans (g1 g2 g3 : Generator) :
  keepsEquations g1 g2 -> keepsEquations g2 g3 -> keepsEquations g1 g3.
Proof.
  intros (He1 & Hw1 & Hl1) (He2 & Hw2 & Hl2).
  repeat split; [congruence | congruence | lia].
Qed.

Lemma keepsEquations_set_mVariables (store : Store) (generator : Generator) :
  keepsEquations generator (set_mVariables store generator).
Proof. by repeat split. Qed.

Lemma keepsEquations_addError (err : Error.t) (generator : Generator) :
  keepsEquations generator (addError err generator).
Proof.
  repeat split. unfold addError. simpl. rewrite length_app. lia.
Qed.

Lemma keepsEquations_onVariables {A} (m : Gen A) (generator generator' : Generator)
    (a : A) :
  onVariables m generator = Some (a, generator') ->
  keepsEquations generator generator'.
Proof.
  unfold onVariables.
  destruct (m (mVariables (mPimpl generator))) as [[a' store] |]; [| discriminate].
  intros [= _ <-]. apply keepsEquations_set_mVariables.
Qed.

Lemma checkVariableOfIntegration_keeps astParent astGrandParent ast g g' :
  checkVariableOfIntegration astParent astGrandParent ast g = Some g' ->
  keepsEquations g g'.
Proof.
  unfold checkVariableOfIntegration.
  destruct (_ && _); [| intros [= <-]; apply keepsEquations_refl].
  intros H. apply bind_Some in H as (variable & _ & H).
  apply bind_Some in H as ([generatorVariable g1] & Hg1 & H).
  apply keepsEquations_onVariables in Hg1.
  eapply keepsEquations_trans; [exact Hg1 |].
  eapply keepsEquations_trans; [apply keepsEquations_set_mVariables |].
  simpl in H.
  destruct (mVariableOfIntegration (mPimpl g1)) as [voi |].
  - destruct (_ && _); injection H as <-;
      [apply keepsEquations_addError | apply keepsEquations_refl].
  - destruct (negb _); injection H as <-;
      [apply keepsEquations_addError | by repeat split].
Qed.

Lemma checkFirstOrder_keeps astParent astGrandParent astGreatGrandParent ast g g' :
  checkFirstOrder utilities astParent astGrandParent astGreatGrandParent ast g
  = Some g' ->
  keepsEquations g g'.
Proof.
  unfold checkFirstOrder.
  destruct (_ && _); [| intros [= <-]; apply keepsEquations_refl].
  destruct (doubleNeq _ _ _); [| intros [= <-]; apply keepsEquations_refl].
  intros H. apply bind_Some in H as (diff & _ & H).
  apply bind_Some in H as (right & _ & H).
  apply bind_Some in H as (variable & _ & H).
  injection H as <-. apply keepsEquations_addError.
Qed.

Lemma checkState_keeps astParent ast g g' :
  checkState astParent ast g = Some g' -> keepsEquations g g'.
Proof.
  unfold checkState.
  destruct (_ && _); [| intros [= <-]; apply keepsEquations_refl].
  intros H. apply bind_Some in H as (variable & _ & H).
  apply bind_Some in H as ([generatorVariable g1] & Hg1 & H).
  apply keepsEquations_onVariables in Hg1. injection H as <-.
  eapply keepsEquations_trans; [exact Hg1 |].
  apply keepsEquations_set_mVariables.
Qed.

Lemma processEquationAst_keeps :
  forall ast astParent astGrandParent astGreatGrandParent g g',
    processEquationAst utilities astParent astGrandParent astGreatGrandParent ast g
    = Some g' ->
    keepsEquations g g'.
Proof.
  fix IH 1.
  intros [type value variable astLeft astRight]
    astParent astGrandParent astGreatGrandParent g g' H.
  simpl in H.
  apply bind_Some in H as (g1 & H1 & H).
  apply bind_Some in H as (g2 & H2 & H).
  apply bind_Some in H as (g3 & H3 & H).
  apply bind_Some in H as (g4 & H4 & H).
  apply checkVariableOfIntegration_keeps in H1.
  apply checkFirstOrder_keeps in H2.
  apply checkState_keeps in H3.
  eapply keepsEquations_trans; [exact H1 |].
  eapply keepsEquations_trans; [exact H2 |].
  eapply keepsEquations_trans; [exact H3 |].
  assert (K4 : keepsEquations g3 g4).
  { destruct astLeft as [astLeft |].
    - exact (IH astLeft _ _ _ _ _ H4).
    - injection H4 as <-. apply keepsEquations_refl. }
  eapply keepsEquations_trans; [exact K4 |].
  destruct astRight as [astRight |].
  - exact (IH astRight _ _ _ _ _ H).
  - injection H as <-. apply keepsEquations_refl.
Qed.

Lemma processEquationAsts_keeps (equations : list GeneratorEquationImpl.t) :
  forall g g',
    processEquationAsts utilities equations g = Some g' -> keepsEquations g g'.
Proof.
  induction equations as [| equation equations IH]; intros g g' H; simpl in H.
  - injection H as <-. apply keepsEquations_refl.
  - apply bind_Some in H as (g1 & H1 & H).
    apply processEquationAst_keeps in H1.
    eapply keepsEquations_trans; [exact H1 | by apply IH].
Qed.

(** After the first half of [processModel], the equations are those of
    the walk, without an order, and no index has been assigned. *)
Lemma processedAsts_equations (walk : ComponentWalk) (g g' : Generator) :
  processedAsts utilities walk g = Some g' ->
  mEquations (mPimpl g') = map walkedEquation (walkEquations walk)
  /\ mIndexWrites (mHeap (mPimpl g')) = []
  /\ (length (errors g ++ walkErrors walk) <= length (errors g'))%nat.
Proof.
  unfold processedAsts.
  destruct (errorCount _ =? 0)%nat.
  - intros H. apply processEquationAsts_keeps in H.
    destruct H as (He & Hw & Hl). simpl in *. by repeat split.
  - intros [= <-]. by repeat split.
Qed.

End ProcessedAsts.

(** ** The second half of [processModel] *)

Section Causalization.
Import Processing.

Lemma checkVariables_mPimpl (variables : list GeneratorVariableImpl.t) :
  forall generator,
    mPimpl (checkVariables variables generator) = mPimpl generator
    /\ (length (errors generator)
        <= length (errors (checkVariables variables generator)))%nat.
Proof.
  induction variables as [| variable variables IH]; intros generator; simpl.
  - split; [reflexivity | lia].
  - destruct (negb _); simpl.
    + destruct (IH (addError
                      (generatorError
                         ("Variable '" +:+ VariablePtr.name (GeneratorVariableImpl.mVariable variable)
                          +:+ "' in component '"
                          +:+ VariablePtr.parentComponentName (GeneratorVariableImpl.mVariable variable)
                          +:+ "' of model '"
                          +:+ VariablePtr.parentModelName (GeneratorVariableImpl.mVariable variable)
                          +:+ "' "
                          +:+ match GeneratorVariableImpl.mType variable with
                              | GeneratorVariableImpl.UNKNOWN => "is of unknown type"
                              | GeneratorVariableImpl.SHOULD_BE_STATE =>
                                  "is used in an ODE, but it is not initialised"
                              | _ => ""
                              end +:+ "."))
                      generator)) as [Himpl Hlen].
      split; [by rewrite Himpl |].
      etrans; [| exact Hlen]. unfold addError. simpl. rewrite length_app. lia.
    + apply IH.
Qed.

(** The two ways through the second half of [processModel]: with an
    error, only the constants receive an index; without one, the loop
    over the equations runs and the variables are checked. *)
Lemma causalization_cases (fuel : nat) (generator generator' : Generator) :
  causalization fuel generator = Some generator' ->
  (errors generator <> []
   /\ generator' = set_mHeap (fst (constantsIndexed generator)) generator)
  \/ (errors generator = []
      /\ exists equations' heap' c',
           causalize fuel (mEquations (mPimpl generator))
             (fst (constantsIndexed generator))
             (mkCounters 0 MAX_SIZE_T (snd (constantsIndexed generator)))
           = Some (equations', heap', c')
           /\ mEquations (mPimpl generator') = equations'
           /\ mHeap (mPimpl generator') = heap').
Proof.
  unfold causalization, constantsIndexed.
  destruct (indexConstants _ _ _) as [heap variableIndex]. simpl fst. simpl snd.
  unfold errorCount. simpl errors.
  destruct (errors generator) as [| err errs] eqn:Herrors; simpl.
  - intros H. right. split; [reflexivity |].
    destruct (causalize fuel _ heap _) as [[[equations' heap'] c'] |]; [| discriminate].
    simpl in H. rewrite Herrors in H. simpl in H. injection H as <-.
    exists equations', heap', c'. split; [reflexivity |].
    by rewrite (proj1 (checkVariables_mPimpl _ _)).
  - rewrite Herrors. simpl. intros [= <-]. left. by split.
Qed.

End Causalization.

(** ** The orders after [processModel] *)

Section OrdersOfARun.
Import Processing.

Lemma walkedEquations_unordered (equations : list WalkedEquation) :
  ordersExact (map GeneratorEquationImpl.mOrder (map walkedEquation equations)) 0.
Proof.
  assert (Hzero : map GeneratorEquationImpl.mOrder (map walkedEquation equations)
                  = repeat 0 (length equations)).
  { induction equations as [| e es IH]; simpl; [reflexivity | by rewrite IH]. }
  rewrite Hzero. clear Hzero. split; [lia |]. split.
  - induction (length equations) as [| n IH]; simpl; [reflexivity | exact IH].
  - intros k Hk.
    assert (Hnone : count_occ Z.eq_dec (repeat 0 (length equations)) k = 0%nat).
    { apply count_occ_not_In. intros Hin. apply repeat_spec in Hin. lia. }
    rewrite Hnone.
    destruct (Z.leb_spec 1 k), (Z.leb_spec k 0); simpl; try reflexivity; lia.
Qed.

Lemma NoDup_firstOrders (n : nat) : NoDup (firstOrders n).
Proof.
  unfold firstOrders. apply NoDup_ListNoDup, Finite.Injective_map_NoDup.
  - intros a b. lia.
  - apply List.seq_NoDup.
Qed.

(** C2.  When [processModel] returns with no error, the orders that the
    equations have received are a permutation of [1, ..., N], where [N]
    is the number of equations that have received one: no order is given
    twice and none is left out.  (An equation that has received no order
    still has the order 0 and is not counted.) *)
Theorem orders_contiguous (utilities : Utilities) (fuel : nat)
    (walk : ComponentWalk) (generator generator' : Generator) :
  Z.of_nat (length (walkEquations walk)) < SIZE_T_MODULUS ->
  processModel utilities fuel walk generator = Some generator' ->
  errors generator' = [] ->
  let orders := assignedOrders (mEquations (mPimpl generator')) in
  Permutation orders (firstOrders (length orders))
  /\ NoDup orders
  /\ forall equation,
       equation ∈ mEquations (mPimpl generator') ->
       GeneratorEquationImpl.mOrder equation = 0
       \/ 1 <= GeneratorEquationImpl.mOrder equation <= Z.of_nat (length orders).
Proof.
  intros Hbound Hrun Herrors orders.
  unfold processModel in Hrun.
  apply bind_Some in Hrun as (g1 & Hasts & Hrun).
  apply processedAsts_equations in Hasts as (Hequations & _ & _).
  assert (Hexact : ordersExact
                     (map GeneratorEquationImpl.mOrder (mEquations (mPimpl generator')))
                     (Z.of_nat (length orders))).
  { apply causalization_cases in Hrun
      as [(Herr1 & ->) | (_ & equations' & heap' & c' & Hloop & Heqs & _)].
    - simpl in Herrors. contradiction.
    - apply causalize_orders in Hloop.
      + rewrite Heqs. subst orders. unfold assignedOrders. rewrite Heqs.
        destruct Hloop as (Hpos & Hlength & Hcount).
        rewrite Hlength. by repeat split.
      + rewrite Hequations. apply walkedEquations_unordered.
      + rewrite Hequations, length_map. exact Hbound. }
  assert (Hperm : Permutation orders (firstOrders (length orders)))
    by (by eapply ordersExact_Permutation).
  split; [exact Hperm |]. split.
  - apply NoDup_ListNoDup.
    eapply Permutation_NoDup; [symmetry; exact Hperm |].
    apply NoDup_ListNoDup, NoDup_firstOrders.
  - intros equation Hin.
    destruct (Z.eq_dec (GeneratorEquationImpl.mOrder equation) 0) as [Hzero | Hnonzero];
      [by left | right].
    destruct Hexact as (_ & _ & Hcount).
    specialize (Hcount _ Hnonzero).
    assert (Hocc : (0 < count_occ Z.eq_dec
                          (map GeneratorEquationImpl.mOrder
                             (mEquations (mPimpl generator')))
                          (GeneratorEquationImpl.mOrder equation))%nat).
    { apply count_occ_In. apply in_map. by apply list_elem_of_In. }
    destruct (Z.leb_spec 1 (GeneratorEquationImpl.mOrder equation)),
             (Z.leb_spec (GeneratorEquationImpl.mOrder equation)
                (Z.of_nat (length orders)));
      simpl in Hcount; lia.
Qed.

End OrdersOfARun.

(** ** The indices of the variables *)

Section Indices.
Import Processing.

Variable size : nat.
Hypothesis size_fits : Z.of_nat size < SIZE_T_MODULUS.

Lemma firstIndices_S (n : nat) :
  firstIndices (S n) = firstIndices n ++ [Z.of_nat n].
Proof. unfold firstIndices. by rewrite seq_S, map_app. Qed.

Lemma length_firstIndices (n : nat) : length (firstIndices n) = n.
Proof. unfold firstIndices. by rewrite length_map, length_seq. Qed.

Lemma stateIndices_cons (write : IndexWrite) (writes : list IndexWrite) :
  stateIndices (write :: writes)
  = stateIndices writes
    ++ (if bool_decide (writtenType write = GeneratorVariableImpl.STATE)
        then [writtenIndex write] else []).
Proof.
  unfold stateIndices. simpl rev. rewrite List.filter_app, map_app. simpl.
  by destruct (bool_decide _).
Qed.

Lemma variableIndices_cons (write : IndexWrite) (writes : list IndexWrite) :
  variableIndices (write :: writes)
  = variableIndices writes
    ++ (if bool_decide (writtenType write = GeneratorVariableImpl.STATE)
        then [] else [writtenIndex write]).
Proof.
  unfold variableIndices. simpl rev. rewrite List.filter_app, map_app. simpl.
  by destruct (bool_decide _).
Qed.

Lemma length_indices (writes : list IndexWrite) :
  (length (stateIndices writes) + length (variableIndices writes)
   = length writes)%nat.
Proof.
  induction writes as [| write writes IH]; [reflexivity |].
  rewrite stateIndices_cons, variableIndices_cons, !length_app.
  destruct (bool_decide _); simpl; lia.
Qed.

(** Distinct handles of a store are no more than its records. *)
Lemma distinct_handles (handles : list nat) :
  NoDup handles ->
  (forall handle, handle ∈ handles -> (handle < size)%nat) ->
  (length handles <= size)%nat.
Proof.
  intros Hnodup Hvalid.
  rewrite <- (length_seq size 0). apply submseteq_length.
  apply NoDup_submseteq; [exact Hnodup |].
  intros handle Hin. apply elem_of_seq. specialize (Hvalid handle Hin). lia.
Qed.

Lemma next_index (n : nat) :
  (n < size)%nat ->
  pre_increment ((Z.of_nat n - 1) mod SIZE_T_MODULUS) = Z.of_nat n
  /\ Z.of_nat n = (Z.of_nat (S n) - 1) mod SIZE_T_MODULUS.
Proof.
  intros Hn. unfold pre_increment. split.
  - rewrite Z.add_mod_idemp_l by (unfold SIZE_T_MODULUS; lia).
    replace (Z.of_nat n - 1 + 1) with (Z.of_nat n) by lia.
    apply Z.mod_small. lia.
  - symmetry. replace (Z.of_nat (S n) - 1) with (Z.of_nat n) by lia.
    apply Z.mod_small. lia.
Qed.

(** An assignment to [mIndex] from the right counter, to a record that
    has no index yet, keeps the invariant. *)
Lemma indexInvariant_write (heap : Heap) (stateIndex variableIndex : Z)
    (variable : nat) (type : GeneratorVariableImpl.Type_)
    (record : GeneratorVariableImpl.t) :
  indexInvariant size heap stateIndex variableIndex ->
  (variable < size)%nat ->
  variable ∉ map written (mIndexWrites heap) ->
  GeneratorVariableImpl.mType record = GeneratorVariableImpl.CONSTANT
  \/ GeneratorVariableImpl.mComputed record = true ->
  let index :=
    if bool_decide (type = GeneratorVariableImpl.STATE)
    then pre_increment stateIndex else pre_increment variableIndex in
  GeneratorVariableImpl.mIndex record = index ->
  indexInvariant size
    (mkHeap (<[variable := record]> (objects heap))
            (mkIndexWrite variable type index :: mIndexWrites heap))
    (if bool_decide (type = GeneratorVariableImpl.STATE)
     then index else stateIndex)
    (if bool_decide (type = GeneratorVariableImpl.STATE)
     then variableIndex else index).
Proof.
  intros (Hsize & Hnodup & Hwrites & Hstates & Hsi & Hvariables & Hvi)
    Hvalid Hfresh Hrecord index Hindex.
  destruct heap as [store writes]. simpl objects in *. simpl mIndexWrites in *.
  assert (Hcount : (S (length writes) <= size)%nat).
  { rewrite <- (length_map written writes).
    apply (distinct_handles (variable :: map written writes)).
    - by apply NoDup_cons.
    - intros handle Hin. apply elem_of_cons in Hin as [-> | Hin]; [exact Hvalid |].
      apply list_elem_of_In, in_map_iff in Hin as (write & <- & Hin).
      by apply Hwrites, list_elem_of_In. }
  pose proof (length_indices writes) as Hsplit.
  unfold indexInvariant. simpl objects. simpl mIndexWrites.
  rewrite stateIndices_cons, variableIndices_cons, !length_app. simpl writtenType.
  simpl writtenIndex.
  split; [by rewrite length_insert |].
  split; [simpl; by apply NoDup_cons |].
  split.
  { intros write Hin. apply elem_of_cons in Hin as [-> | Hin]; simpl.
    - rewrite deref_insert_eq by lia. by repeat split.
    - assert (Hother : variable <> written write).
      { intros ->. apply Hfresh, list_elem_of_In, in_map. by apply list_elem_of_In. }
      rewrite deref_insert_ne by exact Hother. by apply Hwrites. }
  subst index.
  destruct (bool_decide (type = GeneratorVariableImpl.STATE)); simpl length.
  - destruct (next_index (length (stateIndices writes))) as [Hnext Hlast]; [lia |].
    rewrite Nat.add_0_r, Nat.add_1_r, firstIndices_S, <- Hstates, Hsi, Hnext.
    rewrite app_nil_r. by repeat split.
  - destruct (next_index (length (variableIndices writes))) as [Hnext Hlast]; [lia |].
    rewrite Nat.add_0_r, Nat.add_1_r, firstIndices_S, <- Hvariables, Hvi, Hnext.
    rewrite app_nil_r. by repeat split.
Qed.

(** [check] keeps the invariant. *)
Lemma check_indexInvariant (equation : GeneratorEquationImpl.t) (heap : Heap)
    (c : Counters) :
  indexInvariant size heap (stateIndex c) (variableIndex c) ->
  exists relevantCheck equation' heap' c',
    GeneratorEquationImpl.check equation heap c
    = (relevantCheck, equation', heap', c')
    /\ indexInvariant size heap' (stateIndex c') (variableIndex c').
Proof.
  intros Hinv.
  destruct (check_cases equation heap c)
    as [(self' & Hcheck & _) | (_ & variable & type & Hdet & Hcheck)];
    rewrite Hcheck; do 4 eexists; (split; [reflexivity |]); [exact Hinv |].
  apply determined_facts in Hdet as (Hvalid & Hcomputed & Hfour & Hbefore).
  pose proof Hinv as (Hsize & _ & Hwrites & _).
  rewrite Hsize in Hvalid.
  unfold heapAfter, countersAfter, indexAfter. simpl stateIndex. simpl variableIndex.
  assert (Hfresh : variable ∉ map written (mIndexWrites heap)).
  { intros Hin.
    apply list_elem_of_In, in_map_iff in Hin as (write & Heq & Hin).
    apply list_elem_of_In, Hwrites in Hin as (_ & _ & Hrecord).
    rewrite Heq in Hrecord.
    destruct Hrecord as [Hconstant | Hdone]; [| congruence].
    destruct Hbefore as [Hunknown | Hsame]; [congruence |].
    rewrite Hsame in Hconstant.
    destruct Hfour as [H | [H | [H | H]]]; congruence. }
  pose proof (indexInvariant_write heap (stateIndex c) (variableIndex c) variable type
                (GeneratorVariableImpl.mk type
                   (if bool_decide (type = GeneratorVariableImpl.STATE)
                    then pre_increment (stateIndex c)
                    else pre_increment (variableIndex c))
                   (GeneratorVariableImpl.mVariable (deref (objects heap) variable))
                   true) Hinv Hvalid Hfresh) as Hwrite.
  simpl in Hwrite.
  destruct (bool_decide (type = GeneratorVariableImpl.STATE)); apply Hwrite;
    try (by right); reflexivity.
Qed.

(** One pass keeps the invariant. *)
Lemma checkEquations_indexInvariant (equations : list GeneratorEquationImpl.t) :
  forall (heap : Heap) (c : Counters) (relevantCheck : bool),
    indexInvariant size heap (stateIndex c) (variableIndex c) ->
    exists relevantCheck' equations' heap' c',
      checkEquations equations heap c relevantCheck
      = (relevantCheck', equations', heap', c')
      /\ indexInvariant size heap' (stateIndex c') (variableIndex c').
Proof.
  induction equations as [| equation equations IH]; intros heap c relevantCheck Hinv.
  - by exists relevantCheck, [], heap, c.
  - simpl checkEquations.
    destruct (check_indexInvariant equation heap c Hinv)
      as (r & equation' & heap1 & c1 & Hcheck & Hinv1).
    rewrite Hcheck.
    destruct (IH heap1 c1 (r || relevantCheck) Hinv1)
      as (r' & equations' & heap' & c' & Hrest & Hinv').
    rewrite Hrest. by exists r', (equation' :: equations'), heap', c'.
Qed.

(** The loop keeps the invariant. *)
Lemma causalize_indexInvariant (fuel : nat) :
  forall (equations : list GeneratorEquationImpl.t) (heap : Heap) (c : Counters)
         (equations' : list GeneratorEquationImpl.t) (heap' : Heap) (c' : Counters),
    indexInvariant size heap (stateIndex c) (variableIndex c) ->
    causalize fuel equations heap c = Some (equations', heap', c') ->
    indexInvariant size heap' (stateIndex c') (variableIndex c').
Proof.
  induction fuel as [| fuel IH];
    intros equations heap c equations' heap' c' Hinv Hloop; [discriminate |].
  simpl in Hloop.
  destruct (checkEquations_indexInvariant equations heap c false Hinv)
    as (r & eqs1 & heap1 & c1 & Hpass & Hinv1).
  rewrite Hpass in Hloop. destruct r; simpl in Hloop.
  - by apply (IH eqs1 heap1 c1 equations' heap' c').
  - by injection Hloop as <- <- <-.
Qed.

(** The loop over the constants keeps the invariant, when it visits
    distinct records that have no index yet. *)
Lemma indexConstants_indexInvariant (variables : list nat) :
  forall (heap : Heap) (stateIndex variableIndex : Z),
    indexInvariant size heap stateIndex variableIndex ->
    NoDup variables ->
    (forall variable,
        variable ∈ variables ->
        (variable < size)%nat /\ variable ∉ map written (mIndexWrites heap)) ->
    indexInvariant size (fst (indexConstants variables heap variableIndex))
      stateIndex (snd (indexConstants variables heap variableIndex)).
Proof.
  induction variables as [| variable variables IH];
    intros heap stateIndex variableIndex Hinv Hnodup Hfresh; [exact Hinv |].
  apply NoDup_cons in Hnodup as [Hhead Hnodup].
  simpl indexConstants.
  destruct (bool_decide (GeneratorVariableImpl.mType (deref (objects heap) variable)
                         = GeneratorVariableImpl.CONSTANT)) eqn:Hconstant.
  - apply bool_decide_eq_true in Hconstant.
    destruct (Hfresh variable) as [Hvalid Hnew]; [by left |].
    apply IH; [| exact Hnodup |].
    + pose proof (indexInvariant_write heap stateIndex variableIndex variable
                    GeneratorVariableImpl.CONSTANT
                    (GeneratorVariableImpl.set_mIndex (pre_increment variableIndex)
                       (deref (objects heap) variable))
                    Hinv Hvalid Hnew) as Hwrite.
      simpl in Hwrite. unfold assign_mIndex, modify. rewrite Hconstant.
      apply Hwrite; [by left | reflexivity].
    + intros other Hin. destruct (Hfresh other) as [Hvalid' Hnew']; [by right |].
      split; [exact Hvalid' |]. simpl.
      intros Hwritten. apply elem_of_cons in Hwritten as [-> | Hwritten]; done.
  - apply IH; [exact Hinv | exact Hnodup |].
    intros other Hin. apply Hfresh. by right.
Qed.

End Indices.

(** ** The number of records stays the same *)

Section StoreSize.
Import Processing.

Lemma check_size (equation : GeneratorEquationImpl.t) (heap : Heap) (c : Counters) :
  length (objects (GeneratorEquationImpl.check equation heap c).1.2)
  = length (objects heap).
Proof.
  destruct (check_cases equation heap c)
    as [(self' & Hcheck & _) | (_ & variable & type & _ & Hcheck)];
    rewrite Hcheck; simpl; [reflexivity | apply length_insert].
Qed.

Lemma checkEquations_size (equations : list GeneratorEquationImpl.t) :
  forall (heap : Heap) (c : Counters) (relevantCheck : bool),
    length (objects (checkEquations equations heap c relevantCheck).1.2)
    = length (objects heap).
Proof.
  induction equations as [| equation equations IH]; intros heap c relevantCheck;
    [reflexivity |].
  simpl checkEquations.
  pose proof (check_size equation heap c) as Hcheck.
  destruct (GeneratorEquationImpl.check equation heap c)
    as [[[r equation'] heap1] c1].
  specialize (IH heap1 c1 (r || relevantCheck)).
  destruct (checkEquations equations heap1 c1 (r || relevantCheck))
    as [[[r' equations'] heap'] c'].
  simpl in *. congruence.
Qed.

Lemma causalize_size (fuel : nat) :
  forall (equations : list GeneratorEquationImpl.t) (heap : Heap) (c : Counters)
         (equations' : list GeneratorEquationImpl.t) (heap' : Heap) (c' : Counters),
    causalize fuel equations heap c = Some (equations', heap', c') ->
    length (objects heap') = length (objects heap).
Proof.
  induction fuel as [| fuel IH];
    intros equations heap c equations' heap' c' Hloop; [discriminate |].
  simpl in Hloop.
  pose proof (checkEquations_size equations heap c false) as Hpass.
  destruct (checkEquations equations heap c false) as [[[r eqs1] heap1] c1].
  simpl in Hpass. destruct r; simpl in Hloop.
  - apply IH in Hloop. congruence.
  - injection Hloop as <- <- <-. exact Hpass.
Qed.

Lemma indexConstants_size (variables : list nat) :
  forall (heap : Heap) (variableIndex : Z),
    length (objects (indexConstants variables heap variableIndex).1)
    = length (objects heap).
Proof.
  induction variables as [| variable variables IH]; intros heap variableIndex;
    [reflexivity |].
  simpl indexConstants. destruct (bool_decide _); [| apply IH].
  rewrite IH. unfold assign_mIndex. simpl. apply length_modify.
Qed.

End StoreSize.

(** ** The indices after [processModel] *)

Section IndicesOfARun.
Import Processing.

Lemma indexInvariant_initial (store : Store) :
  indexInvariant (length store) (mkHeap store []) MAX_SIZE_T MAX_SIZE_T.
Proof.
  unfold indexInvariant. simpl objects. simpl mIndexWrites.
  split; [reflexivity |]. split; [apply NoDup_nil_2 |].
  split; [intros write Hin; by apply elem_of_nil in Hin |].
  repeat split; vm_compute; reflexivity.
Qed.

(** C7.  In a run of [processModel], no variable record is given an index
    twice; the indices given to STATE variables are 0, 1, 2, ... in the
    order in which they are given, and so are, from a counter of their
    own, the indices given to the other variables (the constants and
    the computed and algebraic variables); a record holds the index that
    it was given.  Both counters start at [MAX_SIZE_T] and are
    incremented before use, and [MAX_SIZE_T] incremented is 0. *)
Theorem indices_assigned_once (utilities : Utilities) (fuel : nat)
    (walk : ComponentWalk) (generator generator' : Generator) :
  processModel utilities fuel walk generator = Some generator' ->
  Z.of_nat (length (mVariables (mPimpl generator'))) < SIZE_T_MODULUS ->
  let writes := mIndexWrites (mHeap (mPimpl generator')) in
  NoDup (map written writes)
  /\ stateIndices writes = firstIndices (length (stateIndices writes))
  /\ variableIndices writes = firstIndices (length (variableIndices writes))
  /\ (forall write,
        write ∈ writes ->
        GeneratorVariableImpl.mIndex
          (deref (mVariables (mPimpl generator')) (written write))
        = writtenIndex write)
  /\ pre_increment MAX_SIZE_T = 0.
Proof.
  intros Hrun Hfits writes.
  unfold processModel in Hrun.
  apply bind_Some in Hrun as (g1 & Hasts & Hrun).
  apply processedAsts_equations in Hasts as (_ & Hnone & _).
  set (size := length (mVariables (mPimpl g1))).
  assert (Hconstants :
    length (objects (constantsIndexed g1).1) = size
    /\ (Z.of_nat size < SIZE_T_MODULUS ->
        indexInvariant size (constantsIndexed g1).1 MAX_SIZE_T (constantsIndexed g1).2)).
  { unfold constantsIndexed. split; [apply indexConstants_size |].
    intros Hsize. apply indexConstants_indexInvariant; [exact Hsize | | |].
    - destruct (mHeap (mPimpl g1)) as [store none] eqn:Hheap.
      simpl in Hnone. subst none.
      unfold size, mVariables. rewrite Hheap. apply indexInvariant_initial.
    - apply NoDup_seq.
    - intros variable Hin. apply elem_of_seq in Hin.
      split; [unfold size; lia |]. rewrite Hnone. simpl. apply not_elem_of_nil. }
  destruct Hconstants as [Hlength Hconstants].
  assert (Hinv : indexInvariant size (mHeap (mPimpl generator'))
                   (((Z.of_nat (length (stateIndices writes)) - 1) mod SIZE_T_MODULUS))
                   (((Z.of_nat (length (variableIndices writes)) - 1) mod SIZE_T_MODULUS))).
  { apply causalization_cases in Hrun
      as [(_ & ->) | (_ & equations' & heap' & c' & Hloop & _ & Hheap)].
    - simpl in Hfits. unfold mVariables in Hfits. simpl in Hfits.
      rewrite Hlength in Hfits. specialize (Hconstants Hfits).
      simpl. subst writes. simpl.
      pose proof Hconstants as (_ & _ & _ & _ & Hsi & _ & Hvi).
      by rewrite <- Hsi, <- Hvi.
    - pose proof (causalize_size _ _ _ _ _ _ _ Hloop) as Hsame.
      rewrite Hlength in Hsame.
      unfold mVariables in Hfits. rewrite Hheap, Hsame in Hfits.
      specialize (Hconstants Hfits).
      apply (causalize_indexInvariant size Hfits) in Hloop; [| exact Hconstants].
      rewrite Hheap. subst writes. rewrite Hheap.
      pose proof Hloop as (_ & _ & _ & _ & Hsi & _ & Hvi).
      by rewrite <- Hsi, <- Hvi. }
  destruct Hinv as (_ & Hnodup & Hwrites & Hstates & _ & Hvariables & _).
  repeat split; try assumption.
  - intros write Hin. by apply Hwrites.
Qed.

End IndicesOfARun.

(** ** A run of the sample model *)

Section Runs.
Import Processing.

(** In the sample model, the equation of [a] receives the order 1 and the
    rate equation the order 2. *)
Lemma orders_contiguous_witness :
  exists generator',
    processModel Samples.literalUtilities 4 Samples.growthWalk
      (newGenerator Samples.cProfile) = Some generator'
    /\ assignedOrders (mEquations (mPimpl generator')) = [2; 1]
    /\ Permutation (assignedOrders (mEquations (mPimpl generator')))
         (firstOrders (length (assignedOrders (mEquations (mPimpl generator'))))).
Proof.
  destruct (processModel Samples.literalUtilities 4 Samples.growthWalk
              (newGenerator Samples.cProfile)) as [generator' |] eqn:Hrun;
    [| vm_compute in Hrun; discriminate Hrun].
  exists generator'. split; [reflexivity |].
  pose proof Hrun as Hvalue. vm_compute in Hvalue. injection Hvalue as Hvalue.
  split; [by rewrite <- Hvalue |].
  apply (orders_contiguous Samples.literalUtilities 4 Samples.growthWalk
           (newGenerator Samples.cProfile) generator').
  - vm_compute. reflexivity.
  - exact Hrun.
  - by rewrite <- Hvalue.
Defined.

(** In the sample model, the constant [k] receives the index 0, then [a]
    the index 1, of the variables, and [x] the index 0 of the states. *)
Lemma indices_assigned_once_witness :
  exists generator',
    processModel Samples.literalUtilities 4 Samples.growthWalk
      (newGenerator Samples.cProfile) = Some generator'
    /\ map written (rev (mIndexWrites (mHeap (mPimpl generator')))) = [3; 2; 1]%nat
    /\ stateIndices (mIndexWrites (mHeap (mPimpl generator'))) = [0]
    /\ variableIndices (mIndexWrites (mHeap (mPimpl generator'))) = [0; 1]
    /\ NoDup (map written (mIndexWrites (mHeap (mPimpl generator')))).
Proof.
  destruct (processModel Samples.literalUtilities 4 Samples.growthWalk
              (newGenerator Samples.cProfile)) as [generator' |] eqn:Hrun;
    [| vm_compute in Hrun; discriminate Hrun].
  exists generator'. split; [reflexivity |].
  pose proof Hrun as Hvalue. vm_compute in Hvalue. injection Hvalue as Hvalue.
  split; [by rewrite <- Hvalue |]. split; [by rewrite <- Hvalue |].
  split; [by rewrite <- Hvalue |].
  apply (indices_assigned_once Samples.literalUtilities 4 Samples.growthWalk
           (newGenerator Samples.cProfile) generator').
  - exact Hrun.
  - rewrite <- Hvalue. vm_compute. reflexivity.
Defined.

End Runs.

(** ** Errors and the second half of [processModel] *)

Section ErrorGate.
Import Processing.








End ErrorGate.

(** ** The parentheses around the operands of a power *)

Section PowerParentheses.
Import GeneratorEquationAstImpl Emitter.

Lemma operatorParentheses_power (profile : GeneratorProfile)
    (ast astLeft astRight : t) (left right : string) :
  mType ast = POWER ->
  (operatorParentheses profile ast astLeft astRight left right).1
  = (if powerLeftInParentheses astLeft then parenthesize left else left)
  /\ (mType astLeft <> MINUS ->
      mType astRight <> MINUS ->
      (operatorParentheses profile ast astLeft astRight left right).2
      = if powerRightInParentheses astRight then parenthesize right else right).
Proof.
  intros Hpower.
  unfold operatorParentheses, isPlusOperator, isMinusOperator, isTimesOperator,
    isDivideOperator, isAndOperator, isOrOperator, isXorOperator, isPowerOperator,
    isRootOperator, isRelationalOperator, isLogicalOrBitwiseOperator,
    isPiecewiseStatement, powerLeftInParentheses, powerRightInParentheses.
  rewrite Hpower. simpl.
  split.
  - destruct (mType astLeft); reflexivity.
  - intros Hleft Hright.
    rewrite (bool_decide_eq_false_2 _ Hleft).
    destruct (mType astRight); reflexivity.
Qed.

(** C3, as the code has it.  When the emitter renders a power with the
    operator of the profile, it encloses the left operand in parentheses
    exactly when the top of the left operand is a relational operator, a
    minus, a times, a divide, a logical or bitwise operator, a piecewise
    statement, or a plus with a right branch; and, when neither operand
    is a minus, it encloses the right operand in parentheses exactly when
    the top of the right operand is a relational operator, a times, a
    divide, a power, a root, a logical or bitwise operator, a piecewise
    statement, or a plus with a right branch. *)
Theorem power_operand_parentheses (profile : GeneratorProfile)
    (generateCode : t -> Gen string) (op : string)
    (ast astLeft astRight : t) (left right : string)
    (store store1 store2 : Store) :
  mType ast = POWER ->
  mLeft ast = Some astLeft ->
  mRight ast = Some astRight ->
  generateCode astLeft store = Some (left, store1) ->
  generateCode astRight store1 = Some (right, store2) ->
  exists rightCode,
    generateOperatorCode profile generateCode op ast store
    = Some ((if powerLeftInParentheses astLeft then parenthesize left else left)
            +:+ op +:+ rightCode, store2)
    /\ (mType astLeft <> MINUS ->
        mType astRight <> MINUS ->
        rightCode
        = if powerRightInParentheses astRight then parenthesize right else right).
Proof.
  intros Hpower Hleft Hright Hcode1 Hcode2.
  destruct (operatorParentheses_power profile ast astLeft astRight left right Hpower)
    as [Hfirst Hsecond].
  exists (operatorParentheses profile ast astLeft astRight left right).2.
  split; [| exact Hsecond].
  unfold generateOperatorCode. rewrite Hleft, Hright.
  unfold bind. rewrite Hcode1, Hcode2.
  unfold isRootOperator. rewrite Hpower. simpl. unfold ret.
  by rewrite Hfirst.
Qed.

(** [a^(b*a)]: the product is enclosed in parentheses. *)
Lemma power_operand_parentheses_witness :
  generateCode Samples.literalUtilities Samples.powerOperatorProfile None false
    (Samples.binary POWER (Samples.ci Samples.a)
       (Samples.binary TIMES (Samples.ci Samples.b) (Samples.ci Samples.a)))
    Samples.computedStore
  = Some ("variables[0]^^(variables[1]*variables[0])", Samples.computedStore).
Proof.
  destruct (power_operand_parentheses Samples.powerOperatorProfile
              (generateCode Samples.literalUtilities Samples.powerOperatorProfile
                 (Some POWER) false)
              "^^"
              (Samples.binary POWER (Samples.ci Samples.a)
                 (Samples.binary TIMES (Samples.ci Samples.b) (Samples.ci Samples.a)))
              (Samples.ci Samples.a)
              (Samples.binary TIMES (Samples.ci Samples.b) (Samples.ci Samples.a))
              "variables[0]" "variables[1]*variables[0]"
              Samples.computedStore Samples.computedStore Samples.computedStore)
    as (rightCode & Hcode & Hright); [reflexivity .. |].
  rewrite Hright in Hcode by discriminate.
  exact Hcode.
Defined.

(** C3 as the specification states it fails: the power [a^b] is an
    operand that the rule of the specification puts in parentheses, and
    on the right of a power it is, but on the left of a power the emitter
    leaves it without parentheses. *)
Lemma power_operands_differ :
  powerOperandInParenthesesAsSpecified
    (Samples.binary POWER (Samples.ci Samples.a) (Samples.ci Samples.b)) = true
  /\ generateCode Samples.literalUtilities Samples.powerOperatorProfile None false
       (Samples.binary POWER
          (Samples.binary POWER (Samples.ci Samples.a) (Samples.ci Samples.b))
          (Samples.binary POWER (Samples.ci Samples.a) (Samples.ci Samples.b)))
       Samples.computedStore
     = Some ("variables[0]^^variables[1]^^(variables[0]^^variables[1])",
             Samples.computedStore)
  /\ (operatorParentheses Samples.powerOperatorProfile
        (Samples.binary POWER
           (Samples.binary POWER (Samples.ci Samples.a) (Samples.ci Samples.b))
           (Samples.binary POWER (Samples.ci Samples.a) (Samples.ci Samples.b)))
        (Samples.binary POWER (Samples.ci Samples.a) (Samples.ci Samples.b))
        (Samples.binary POWER (Samples.ci Samples.a) (Samples.ci Samples.b))
        "variables[0]^^variables[1]" "variables[0]^^variables[1]").1
     <> parenthesize "variables[0]^^variables[1]".
Proof.
  split; [reflexivity |]. split; [vm_compute; reflexivity |].
  vm_compute. discriminate.
Qed.

(** The test of the right operand of a power for a minus reads the left
    operand: [(a-b)^3.0] comes with parentheses around [3.0], and
    [3.0^(a-b)] without parentheses around [a-b]. *)
Lemma power_minus_operands :
  generateCode Samples.literalUtilities Samples.powerOperatorProfile None false
    (Samples.binary POWER
       (Samples.binary MINUS (Samples.ci Samples.a) (Samples.ci Samples.b))
       (Samples.cn "3.0"))
    Samples.computedStore
  = Some ("(variables[0]-variables[1])^^(3.0)", Samples.computedStore)
  /\ generateCode Samples.literalUtilities Samples.powerOperatorProfile None false
       (Samples.binary POWER (Samples.cn "3.0")
          (Samples.binary MINUS (Samples.ci Samples.a) (Samples.ci Samples.b)))
       Samples.computedStore
     = Some ("3.0^^variables[0]-variables[1]", Samples.computedStore).
Proof. split; vm_compute; reflexivity. Qed.

End PowerParentheses.

(** ** The lines of the initializer block *)

Section InitializerLines.

(** C8 fails on the lines of the initial values: with a profile whose
    assignment operator is [:=], the lines of the equations use it, as
    the block of the constant equations shows, but the lines that
    initialise [x] and [k] are written with [=], which
    [initializeVariables] spells out itself. *)
Theorem initial_value_lines_ignore_profile :
  exists generator',
    Processing.processModel Samples.literalUtilities 4 Samples.growthWalk
      (newGenerator Samples.pascalAssignmentProfile) = Some generator'
    /\ errors generator' = []
    /\ eqString (mProfile (mPimpl generator')) = " := "
    /\ fst <$> Blocks.computeConstantEquations Samples.literalUtilities generator'
       = Some ("variables[1] := variables[0]+3.0;" +:+ newline)
    /\ fst <$> Blocks.initializeVariables Samples.literalUtilities generator'
       = Some ("states[0] = 1.0;" +:+ newline
               +:+ "variables[0] = 2.0;" +:+ newline).
Proof.
  eexists. split; [vm_compute; reflexivity |].
  repeat split; vm_compute; reflexivity.
Qed.

End InitializerLines.
